(** * ftracker: fitness-tracker metrics, embedded in Rocq

    The Go package [ftracker] computes distance, mean speed and spent
    calories from raw counters and renders a report.  Every function of
    the package is pure; its [float64] values are modelled by Rocq's
    primitive binary64 floats (round to nearest, ties to even, each
    operation rounded on its own), its [int] values by [Z] (the package
    performs no integer arithmetic, an [int] is only ever converted to
    [float64]), and its strings by byte strings, the literals being the
    UTF-8 bytes of the Go source.

    Two versions of the package are embedded: [Ftracker] is
    [src/ftracker.go], [Part000] is [src/unnamed/part_000]. *)

From Stdlib Require Import ZArith QArith Qpower Qabs Bool List String Ascii.
From Stdlib Require Import Lia Lqa.
From Stdlib Require Import Floats DecimalString.
Import ListNotations.

Set Warnings "-inexact-float".

Local Open Scope string_scope.
Local Open Scope float_scope.

(** ** The parts of the Go language and library the package relies on *)

Module Go.

(** [float64(n)] for an integer [n]: the nearest binary64 value, ties to
    even.  Exact whenever [|n| <= 2^53]. *)
Definition float64 (n : Z) : float :=
  SF2Prim (binary_normalize prec emax n 0 false).

(** The line feed written [\n] in a Go string literal. *)
Definition nl : string := String (ascii_of_nat 10) EmptyString.

(** An operand handed to [fmt.Sprintf]. *)
Inductive operand : Type :=
| AString (s : string)
| AFloat (x : float).

Definition digit (d : Z) : ascii := ascii_of_N (48 + Z.to_N d).

Definition decimal (n : Z) : string :=
  NilZero.string_of_uint (N.to_uint (Z.to_N n)).

(** [m * 2^e * 100] rounded to an integer, halves going to the even
    neighbour: the number of hundredths [strconv] prints for the
    magnitude [m * 2^e]. *)
Definition hundredths (m : positive) (e : Z) : Z :=
  let n := (100 * Z.pos m)%Z in
  if (0 <=? e)%Z then (n * 2 ^ e)%Z
  else
    let d := (2 ^ (- e))%Z in
    let q := (n / d)%Z in
    let r := (n mod d)%Z in
    match (2 * r ?= d)%Z with
    | Lt => q
    | Gt => (q + 1)%Z
    | Eq => if Z.even q then q else (q + 1)%Z
    end.

Definition fixed2 (h : Z) : string :=
  decimal (h / 100) ++ "."
    ++ String (digit ((h mod 100) / 10)) (String (digit (h mod 10)) EmptyString).

(** The verb [%.2f] applied to a [float64]. *)
Definition fmtFloat2 (x : float) : string :=
  match Prim2SF x with
  | S754_nan => "NaN"
  | S754_infinity false => "+Inf"
  | S754_infinity true => "-Inf"
  | S754_zero false => "0.00"
  | S754_zero true => "-0.00"
  | S754_finite false m e => fixed2 (hundredths m e)
  | S754_finite true m e => "-" ++ fixed2 (hundredths m e)
  end.

(** [fmt.Sprintf], for the two verbs the package uses: [%s] with a string
    operand and [%.2f] with a float operand.  Any other byte of the format
    is copied.  A verb whose operand is absent or of the other kind is not
    reached by the package (Go prints a [%!verb] diagnostic there); the
    model copies the verb. *)
Fixpoint Sprintf (format : string) (args : list operand) : string :=
  match format with
  | EmptyString => EmptyString
  | String "%" (String "s" rest) =>
      match args with
      | AString s :: args' => s ++ Sprintf rest args'
      | _ => String "%" (String "s" (Sprintf rest args))
      end
  | String "%" (String "." (String "2" (String "f" rest))) =>
      match args with
      | AFloat x :: args' => fmtFloat2 x ++ Sprintf rest args'
      | _ => String "%" (String "." (String "2" (String "f" (Sprintf rest args))))
      end
  | String c rest => String c (Sprintf rest args)
  end.

(** A float that is an infinity or not a number. *)
Definition isInfOrNaN (x : float) : bool :=
  match Prim2SF x with
  | S754_infinity _ | S754_nan => true
  | _ => false
  end.

End Go.

Import Go.

(** ** [src/ftracker.go] *)

Module Ftracker.

(** Untyped constants; every use is in a [float64] expression, where Go
    converts the constant to [float64]. *)
Definition lenStep : float := 0.65.
Definition mInKm : float := 1000.
Definition minInH : float := 60.
Definition kmhInMsec : float := 0.278.
Definition cmInM : float := 100.

Definition distance (action : Z) : float :=
  float64 action * lenStep / mInKm.

Definition meanSpeed (action : Z) (duration : float) : float :=
  if duration =? 0 then 0
  else
    let distance := distance action in
    distance / duration.

Definition runningCaloriesMeanSpeedMultiplier : float := 18.
Definition runningCaloriesMeanSpeedShift : float := 1.79.

Definition RunningSpentCalories (action : Z) (weight duration : float) : float :=
  (runningCaloriesMeanSpeedMultiplier * meanSpeed action duration
     * runningCaloriesMeanSpeedShift)
    * weight / mInKm * duration * minInH.

Definition walkingCaloriesWeightMultiplier : float := 0.035.
Definition walkingSpeedHeightMultiplier : float := 0.029.

Definition swimmingCaloriesMeanSpeedShift : float := 1.1.
Definition swimmingCaloriesWeightMultiplier : float := 2.

Definition swimmingMeanSpeed (lengthPool countPool : Z) (duration : float) : float :=
  if duration =? 0 then 0
  else float64 lengthPool * float64 countPool / mInKm / duration.

Definition SwimmingSpentCalories (lengthPool countPool : Z)
    (duration weight : float) : float :=
  (swimmingMeanSpeed lengthPool countPool duration + swimmingCaloriesMeanSpeedShift)
    * swimmingCaloriesWeightMultiplier * weight * duration.

(** The format of the report, the same literal in the three branches. *)
Definition reportFormat : string :=
  "Тип тренировки: %s" ++ nl
    ++ "Длительность: %.2f ч." ++ nl
    ++ "Дистанция: %.2f км." ++ nl
    ++ "Скорость: %.2f км/ч" ++ nl
    ++ "Сожгли калорий: %.2f" ++ nl.

Section WithPow.

(** [math.Pow] of Go's standard library. *)
Variable Pow : float -> float -> float.

Definition WalkingSpentCalories (action : Z) (duration weight height : float) : float :=
  (walkingCaloriesWeightMultiplier * weight
     + (Pow (meanSpeed action duration * kmhInMsec) 2 / (height / cmInM))
         * walkingSpeedHeightMultiplier * weight)
    * duration * minInH.

Definition ShowTrainingInfo (action : Z) (trainingType : string)
    (duration weight height : float) (lengthPool countPool : Z) : string :=
  if String.eqb trainingType "Бег" then
    let distance := distance action in
    let speed := meanSpeed action duration in
    let calories := RunningSpentCalories action weight duration in
    Sprintf reportFormat
      [AString trainingType; AFloat duration; AFloat distance; AFloat speed;
       AFloat calories]
  else if String.eqb trainingType "Ходьба" then
    let distance := distance action in
    let speed := meanSpeed action duration in
    let calories := WalkingSpentCalories action duration weight height in
    Sprintf reportFormat
      [AString trainingType; AFloat duration; AFloat distance; AFloat speed;
       AFloat calories]
  else if String.eqb trainingType "Плавание" then
    let distance := distance action in
    let speed := swimmingMeanSpeed lengthPool countPool duration in
    let calories := SwimmingSpentCalories lengthPool countPool duration weight in
    Sprintf reportFormat
      [AString trainingType; AFloat duration; AFloat distance; AFloat speed;
       AFloat calories]
  else "неизвестный тип тренировки".

End WithPow.

End Ftracker.

(** ** [src/unnamed/part_000]: the calorie functions take the speed *)

Module Part000.

Definition lenStep : float := 0.65.
Definition mInKm : float := 1000.
Definition minInH : float := 60.
Definition kmhInMsec : float := 0.278.
Definition cmInM : float := 100.

Definition distance (action : Z) : float :=
  float64 action * lenStep / mInKm.

Definition meanSpeed (action : Z) (duration : float) : float :=
  if duration =? 0 then 0
  else
    let distance := distance action in
    distance / duration.

Definition runningCaloriesMeanSpeedMultiplier : float := 18.
Definition runningCaloriesMeanSpeedShift : float := 1.79.

Definition RunningSpentCalories (weight duration speed : float) : float :=
  (runningCaloriesMeanSpeedMultiplier * speed * runningCaloriesMeanSpeedShift)
    * weight / mInKm * duration * minInH.

Definition walkingCaloriesWeightMultiplier : float := 0.035.
Definition walkingSpeedHeightMultiplier : float := 0.029.

Definition swimmingCaloriesMeanSpeedShift : float := 1.1.
Definition swimmingCaloriesWeightMultiplier : float := 2.

Definition swimmingMeanSpeed (lengthPool countPool : Z) (duration : float) : float :=
  if duration =? 0 then 0
  else float64 lengthPool * float64 countPool / mInKm / duration.

Definition SwimmingSpentCalories (duration weight speed : float) : float :=
  (speed + swimmingCaloriesMeanSpeedShift)
    * swimmingCaloriesWeightMultiplier * weight * duration.

Definition reportFormat : string :=
  "Тип тренировки: %s" ++ nl
    ++ "Длительность: %.2f ч." ++ nl
    ++ "Дистанция: %.2f км." ++ nl
    ++ "Скорость: %.2f км/ч" ++ nl
    ++ "Сожгли калорий: %.2f" ++ nl.

Section WithPow.

Variable Pow : float -> float -> float.

Definition WalkingSpentCalories (duration weight height speed : float) : float :=
  (walkingCaloriesWeightMultiplier * weight
     + (Pow (speed * kmhInMsec) 2 / (height / 100)) * 0.029 * weight)
    * duration * minInH.

Definition ShowTrainingInfo (action : Z) (trainingType : string)
    (duration weight height : float) (lengthPool countPool : Z) : string :=
  if String.eqb trainingType "Бег" then
    let distance := distance action in
    let speed := meanSpeed action duration in
    let calories := RunningSpentCalories weight duration speed in
    Sprintf reportFormat
      [AString trainingType; AFloat duration; AFloat distance; AFloat speed;
       AFloat calories]
  else if String.eqb trainingType "Ходьба" then
    let distance := distance action in
    let speed := meanSpeed action duration in
    let calories := WalkingSpentCalories duration weight height speed in
    Sprintf reportFormat
      [AString trainingType; AFloat duration; AFloat distance; AFloat speed;
       AFloat calories]
  else if String.eqb trainingType "Плавание" then
    let distance := distance action in
    let speed := swimmingMeanSpeed lengthPool countPool duration in
    let calories := SwimmingSpentCalories duration weight speed in
    Sprintf reportFormat
      [AString trainingType; AFloat duration; AFloat distance; AFloat speed;
       AFloat calories]
  else "неизвестный тип тренировки".

End WithPow.

End Part000.

(** ** Vocabulary of the statements *)

(** The report the format describes, field by field: the label, then the
    duration, the distance, the speed and the calories, each with two
    decimals. *)
Definition reportOf (label : string) (duration distance speed calories : float)
    : string :=
  "Тип тренировки: " ++ label ++ nl
    ++ "Длительность: " ++ fmtFloat2 duration ++ " ч." ++ nl
    ++ "Дистанция: " ++ fmtFloat2 distance ++ " км." ++ nl
    ++ "Скорость: " ++ fmtFloat2 speed ++ " км/ч" ++ nl
    ++ "Сожгли калорий: " ++ fmtFloat2 calories ++ nl.

(** [x] lies at most two units in the last place away from [y]. *)
Definition within2ulp (x y : float) : bool :=
  (next_down (next_down y) <=? x) && (x <=? next_up (next_up y)).

(** [p] holds of each of the [2^k] integers from [base] on. *)
Fixpoint allFrom (p : Z -> bool) (k : nat) (base : Z) : bool :=
  match k with
  | O => p base
  | S k' =>
      if allFrom p k' base then allFrom p k' (base + 2 ^ Z.of_nat k')%Z
      else false
  end.

(** [x], printed with two decimals, reads [s]. *)
Definition roundsTo (x : float) (s : string) : bool :=
  String.eqb (fmtFloat2 x) s.

Definition isDigit (c : ascii) : bool :=
  let n := N_of_ascii c in ((48 <=? n) && (n <=? 57))%N.

Fixpoint hasDigit (s : string) : bool :=
  match s with
  | EmptyString => false
  | String c rest => isDigit c || hasDigit rest
  end.

(** A float that is a zero of either sign: [x == 0] in Go. *)
Definition isZero (x : float) : bool :=
  match Prim2SF x with
  | S754_zero _ => true
  | _ => false
  end.

(** A float that is a zero or not a number. *)
Definition isZeroOrNaN (x : float) : bool :=
  match Prim2SF x with
  | S754_zero _ | S754_nan => true
  | _ => false
  end.

(** A float that is neither an infinity nor not a number. *)
Definition isFinite (x : float) : bool :=
  match Prim2SF x with
  | S754_zero _ | S754_finite _ _ _ => true
  | _ => false
  end.

(** One of the three labels the dispatcher knows. *)
Definition isLabel (trainingType : string) : bool :=
  String.eqb trainingType "Бег"
  || String.eqb trainingType "Ходьба"
  || String.eqb trainingType "Плавание".

(** The number of line feeds of a string. *)
Fixpoint countNL (s : string) : nat :=
  match s with
  | EmptyString => O
  | String c rest => ((if Ascii.eqb c "010" then 1 else 0) + countNL rest)%nat
  end.

(** ** Exact values, to measure rounding *)

(** The largest value of Go's [int] on a 64-bit platform. *)
Definition maxInt : Z := (2 ^ 63 - 1)%Z.

(** [2^e] as a rational number. *)
Definition pow2 (e : Z) : Q := Qpower 2 e.

(** The value [m * 2^e] of a positive finite float. *)
Definition valueOf (m : positive) (e : Z) : Q :=
  (inject_Z (Zpos m) * pow2 e)%Q.

(** The exact value of a finite float; 0 by convention for an infinity and
    for not a number. *)
Definition valueQ (x : float) : Q :=
  match Prim2SF x with
  | S754_finite false m e => valueOf m e
  | S754_finite true m e => (- valueOf m e)%Q
  | _ => 0%Q
  end.

(** [w] lies where the record says: on the integer [shr_m], in the lower
    half above it, on the middle, or in the upper half, as the round and
    sticky bits tell. *)
Definition inbetween (w : Q) (mrs : shr_record) : Prop :=
  let m := inject_Z (shr_m mrs) in
  match shr_r mrs, shr_s mrs with
  | false, false => (w == m)%Q
  | false, true => (m < w /\ w < m + (1 # 2))%Q
  | true, false => (w == m + (1 # 2))%Q
  | true, true => (m + (1 # 2) < w /\ w < m + 1)%Q
  end.

(** * Properties *)

(** C3: with a zero duration both mean-speed functions return 0, whatever
    the counters are; the functions are total, so this is an ordinary
    return value.  The guard [duration == 0] also holds of the negative
    zero, for which the result is the same positive zero. *)
Theorem mean_speeds_zero_duration :
  forall action lengthPool countPool : Z,
    Ftracker.meanSpeed action 0 = 0
    /\ Ftracker.swimmingMeanSpeed lengthPool countPool 0 = 0
    /\ Ftracker.meanSpeed action (-0) = 0
    /\ Ftracker.swimmingMeanSpeed lengthPool countPool (-0) = 0.
Proof.
  intros action lengthPool countPool.
  unfold Ftracker.meanSpeed, Ftracker.swimmingMeanSpeed.
  repeat split; reflexivity.
Qed.

(** ** Auxiliary facts *)

Lemma allFrom_sound (p : Z -> bool) :
  forall (k : nat) (base : Z),
    allFrom p k base = true ->
    forall a : Z, (base <= a < base + 2 ^ Z.of_nat k)%Z -> p a = true.
Proof.
  induction k as [|k IH]; intros base Hall a Ha.
  - simpl in *. replace a with base by lia. exact Hall.
  - simpl in Hall.
    destruct (allFrom p k base) eqn:Hlo; [|discriminate].
    rewrite Nat2Z.inj_succ, Z.pow_succ_r in Ha by lia.
    destruct (Z_lt_le_dec a (base + 2 ^ Z.of_nat k)) as [Hlt|Hge].
    + apply (IH base Hlo). lia.
    + apply (IH _ Hall). lia.
Qed.

(** The format, run by [Sprintf] on a label and four floats, yields the
    report field by field. *)
Lemma Sprintf_reportFormat (label : string) (d x v c : float) :
  Sprintf Ftracker.reportFormat [AString label; AFloat d; AFloat x; AFloat v; AFloat c]
  = reportOf label d x v c.
Proof.
  unfold Ftracker.reportFormat, reportOf, nl. simpl. reflexivity.
Qed.

Lemma isInfOrNaN_div_zero (x : float) : isInfOrNaN (x / 0) = true.
Proof.
  unfold isInfOrNaN. rewrite div_spec.
  change (Prim2SF 0) with (S754_zero false).
  destruct (Prim2SF x) as [s|s| |s m e]; reflexivity.
Qed.

Lemma isInfOrNaN_div_neg_zero (x : float) : isInfOrNaN (x / (-0)) = true.
Proof.
  unfold isInfOrNaN. rewrite div_spec.
  change (Prim2SF (-0)) with (S754_zero true).
  destruct (Prim2SF x) as [s|s| |s m e]; reflexivity.
Qed.

Lemma isInfOrNaN_mul_l (x y : float) :
  isInfOrNaN x = true -> isInfOrNaN (x * y) = true.
Proof.
  unfold isInfOrNaN. rewrite mul_spec.
  destruct (Prim2SF x) as [s|s| |s m e]; try discriminate; intros _;
    destruct (Prim2SF y) as [t|t| |t n f]; reflexivity.
Qed.

Lemma isInfOrNaN_add_r (x y : float) :
  isInfOrNaN y = true -> isInfOrNaN (x + y) = true.
Proof.
  unfold isInfOrNaN. rewrite add_spec.
  destruct (Prim2SF y) as [t|t| |t n f]; try discriminate; intros _;
    destruct (Prim2SF x) as [s|s| |s m e]; try reflexivity;
    destruct s, t; reflexivity.
Qed.

(** The walking calories once the quotient by the height is an infinity or
    not a number. *)
Lemma walking_shape_isInfOrNaN (q k w c d m : float) :
  isInfOrNaN q = true -> isInfOrNaN ((c + q * k * w) * d * m) = true.
Proof.
  intro Hq.
  do 2 apply isInfOrNaN_mul_l. apply isInfOrNaN_add_r.
  do 2 apply isInfOrNaN_mul_l. exact Hq.
Qed.

(** ** The distance and the speeds *)

(** C8: the distance is the step count times 0.65, divided by 1000, each
    operation rounded; it is 0 for no step and 0.65 for 1000 steps, and the
    mean speed of 1000 steps in one hour is 0.65. *)
Theorem distance_step_formula :
  (forall action : Z, Ftracker.distance action = float64 action * 0.65 / 1000)
  /\ Ftracker.distance 0 = 0
  /\ Ftracker.distance 1000 = 0.65
  /\ Ftracker.meanSpeed 1000 1 = 0.65.
Proof.
  split; [intro action; reflexivity|].
  repeat split; vm_compute; reflexivity.
Qed.

(** C9, as stated, fails: for 3 steps the distance and the float product
    [3 * 0.00065] are different floats. *)
Lemma distance_not_slope_product :
  ~ (forall action : Z, (0 <= action)%Z ->
       (Ftracker.distance action =? float64 action * 0.00065) = true).
Proof.
  intro H. specialize (H 3%Z). vm_compute in H.
  assert (Hf : false = true) by (apply H; discriminate).
  discriminate Hf.
Qed.

(** For fewer than 2^17 steps the distance lies within two units in the
    last place of the float product of the count and 0.00065. *)
Theorem distance_slope_two_ulp :
  forall action : Z, (0 <= action < 131072)%Z ->
    within2ulp (Ftracker.distance action) (float64 action * 0.00065) = true.
Proof.
  intros action Ha.
  apply (allFrom_sound
           (fun a => within2ulp (Ftracker.distance a) (float64 a * 0.00065))
           17 0%Z).
  - vm_cast_no_check (eq_refl true).
  - change (2 ^ Z.of_nat 17)%Z with 131072%Z. lia.
Qed.

Lemma distance_slope_two_ulp_witness :
  (0 <= 3 < 131072)%Z
  /\ within2ulp (Ftracker.distance 3) (float64 3 * 0.00065) = true.
Proof.
  split; [lia | apply (distance_slope_two_ulp 3); lia].
Defined.

(** ** The calories *)

(** C5, as stated, fails in its number: the running calories of 1000 steps
    in one hour at 70 kg do not read 88.07 with two decimals. *)
Lemma running_calories_not_88_07 :
  ~ (roundsTo (Ftracker.RunningSpentCalories 1000 70 1) "88.07" = true).
Proof.
  vm_compute. discriminate.
Qed.

(** C5, amended: the running calories follow the formula, each operation
    rounded; for 1000 steps in one hour at 70 kg they are the float the
    literal expression with 0.65 for the speed evaluates to, which is
    below 87.97 and reads 87.96 with two decimals. *)
Theorem running_calories_formula :
  (forall (action : Z) (weight duration : float),
      Ftracker.RunningSpentCalories action weight duration
      = (18 * Ftracker.meanSpeed action duration * 1.79)
          * weight / 1000 * duration * 60)
  /\ Ftracker.RunningSpentCalories 1000 70 1
     = (18 * 0.65 * 1.79) * 70 / 1000 * 1 * 60
  /\ (87.96 <=? Ftracker.RunningSpentCalories 1000 70 1) = true
  /\ (Ftracker.RunningSpentCalories 1000 70 1 <? 87.97) = true
  /\ roundsTo (Ftracker.RunningSpentCalories 1000 70 1) "87.96" = true.
Proof.
  split; [intros action weight duration; reflexivity|].
  repeat split; vm_compute; reflexivity.
Qed.

(** C6: the walking calories follow the formula, each operation rounded,
    for whatever [math.Pow] returns; the height is not guarded, and a
    zero height (of either sign) makes the result an infinity or not a
    number, whatever the other inputs are. *)
Theorem walking_calories_formula :
  forall (Pow : float -> float -> float) (action : Z)
         (duration weight height : float),
    Ftracker.WalkingSpentCalories Pow action duration weight height
    = (0.035 * weight
       + (Pow (Ftracker.meanSpeed action duration * 0.278) 2 / (height / 100))
           * 0.029 * weight)
        * duration * 60
    /\ isInfOrNaN (Ftracker.WalkingSpentCalories Pow action duration weight 0) = true
    /\ isInfOrNaN (Ftracker.WalkingSpentCalories Pow action duration weight (-0)) = true.
Proof.
  intros Pow action duration weight height.
  split; [reflexivity|].
  unfold Ftracker.WalkingSpentCalories.
  change (0 / Ftracker.cmInM) with 0.
  change (-0 / Ftracker.cmInM) with (-0).
  split; apply walking_shape_isInfOrNaN.
  - apply isInfOrNaN_div_zero.
  - apply isInfOrNaN_div_neg_zero.
Qed.

(** C7: the swimming calories follow the formula, each operation rounded;
    for a duration that is not zero the swimming speed is the product of
    the pool length and the lap count, over 1000, over the duration; for a
    25 m pool, 20 laps, one hour and 70 kg the speed is 0.5 and the
    calories are exactly 224. *)
Theorem swimming_calories_formula :
  forall (lengthPool countPool : Z) (duration weight : float),
    Ftracker.SwimmingSpentCalories lengthPool countPool duration weight
    = (Ftracker.swimmingMeanSpeed lengthPool countPool duration + 1.1)
        * 2 * weight * duration
    /\ ((duration =? 0) = false ->
        Ftracker.swimmingMeanSpeed lengthPool countPool duration
        = float64 lengthPool * float64 countPool / 1000 / duration)
    /\ Ftracker.swimmingMeanSpeed 25 20 1 = 0.5
    /\ Ftracker.SwimmingSpentCalories 25 20 1 70 = 224.
Proof.
  intros lengthPool countPool duration weight.
  split; [reflexivity|]. split.
  - intro Hd. unfold Ftracker.swimmingMeanSpeed. rewrite Hd. reflexivity.
  - split; vm_compute; reflexivity.
Qed.

Lemma swimming_calories_formula_witness :
  (1 =? 0) = false
  /\ Ftracker.swimmingMeanSpeed 25 20 1 = float64 25 * float64 20 / 1000 / 1.
Proof.
  split; [reflexivity|].
  apply (proj1 (proj2 (swimming_calories_formula 25 20 1 70))).
  reflexivity.
Defined.

(** ** The report *)

(** The three labels are the localized literals of the source; the spec
    names them running, walking and swimming.  The English names are not
    labels of the package. *)
Remark english_names_are_not_labels (Pow : float -> float -> float) :
  Ftracker.ShowTrainingInfo Pow 1000 "running" 1 70 170 25 20
  = "неизвестный тип тренировки".
Proof. reflexivity. Qed.

(** A run of 1000 steps in one hour at 70 kg, as reported. *)
Example running_report_1000 (Pow : float -> float -> float) :
  Ftracker.ShowTrainingInfo Pow 1000 "Бег" 1 70 170 0 0
  = "Тип тренировки: Бег" ++ nl
      ++ "Длительность: 1.00 ч." ++ nl
      ++ "Дистанция: 0.65 км." ++ nl
      ++ "Скорость: 0.65 км/ч" ++ nl
      ++ "Сожгли калорий: 87.96" ++ nl.
Proof. vm_compute. reflexivity. Qed.

(** C1: the label selects the formulas of the report.  The running label
    reports the step distance, the mean speed and the running calories;
    the walking label the step distance, the mean speed and the walking
    calories; the swimming label the step distance, the swimming speed and
    the swimming calories. *)
Theorem dispatch_selects_formulas :
  forall (Pow : float -> float -> float) (action : Z)
         (duration weight height : float) (lengthPool countPool : Z),
    Ftracker.ShowTrainingInfo Pow action "Бег" duration weight height
        lengthPool countPool
    = reportOf "Бег" duration
        (Ftracker.distance action)
        (Ftracker.meanSpeed action duration)
        (Ftracker.RunningSpentCalories action weight duration)
    /\ Ftracker.ShowTrainingInfo Pow action "Ходьба" duration weight height
        lengthPool countPool
      = reportOf "Ходьба" duration
          (Ftracker.distance action)
          (Ftracker.meanSpeed action duration)
          (Ftracker.WalkingSpentCalories Pow action duration weight height)
    /\ Ftracker.ShowTrainingInfo Pow action "Плавание" duration weight height
        lengthPool countPool
      = reportOf "Плавание" duration
          (Ftracker.distance action)
          (Ftracker.swimmingMeanSpeed lengthPool countPool duration)
          (Ftracker.SwimmingSpentCalories lengthPool countPool duration weight).
Proof.
  intros Pow action duration weight height lengthPool countPool.
  repeat split; apply Sprintf_reportFormat.
Qed.

(** C2: in the swimming branch the reported distance is the step count
    times 0.65 over 1000, while the speed and the calories come from the
    pool length and the lap count.  For 1000 strokes and 20 laps of a 25 m
    pool in one hour the report shows 0.65 km, not the 0.50 km of the
    pool, next to the pool speed 0.50 and the pool calories 224.00. *)
Theorem swimming_report_uses_step_distance :
  forall Pow : float -> float -> float,
    (forall (action : Z) (duration weight height : float)
            (lengthPool countPool : Z),
        Ftracker.ShowTrainingInfo Pow action "Плавание" duration weight height
          lengthPool countPool
        = reportOf "Плавание" duration
            (float64 action * 0.65 / 1000)
            (Ftracker.swimmingMeanSpeed lengthPool countPool duration)
            (Ftracker.SwimmingSpentCalories lengthPool countPool duration weight))
    /\ Ftracker.ShowTrainingInfo Pow 1000 "Плавание" 1 70 170 25 20
       = "Тип тренировки: Плавание" ++ nl
           ++ "Длительность: 1.00 ч." ++ nl
           ++ "Дистанция: 0.65 км." ++ nl
           ++ "Скорость: 0.50 км/ч" ++ nl
           ++ "Сожгли калорий: 224.00" ++ nl
    /\ String.eqb
         (Ftracker.ShowTrainingInfo Pow 1000 "Плавание" 1 70 170 25 20)
         (reportOf "Плавание" 1
            (float64 25 * float64 20 / 1000)
            (Ftracker.swimmingMeanSpeed 25 20 1)
            (Ftracker.SwimmingSpentCalories 25 20 1 70))
       = false.
Proof.
  intro Pow. split; [|split].
  - intros action duration weight height lengthPool countPool.
    apply Sprintf_reportFormat.
  - vm_compute. reflexivity.
  - vm_compute. reflexivity.
Qed.

(** C4: a label that is none of the three yields the fallback message,
    whatever the numeric parameters are; the message carries no digit. *)
Theorem unknown_label_fallback :
  forall (Pow : float -> float -> float) (action : Z) (trainingType : string)
         (duration weight height : float) (lengthPool countPool : Z),
    trainingType <> "Бег" ->
    trainingType <> "Ходьба" ->
    trainingType <> "Плавание" ->
    Ftracker.ShowTrainingInfo Pow action trainingType duration weight height
      lengthPool countPool
    = "неизвестный тип тренировки"
    /\ hasDigit "неизвестный тип тренировки" = false.
Proof.
  intros Pow action trainingType duration weight height lengthPool countPool
         Hrun Hwalk Hswim.
  split; [|reflexivity].
  unfold Ftracker.ShowTrainingInfo.
  apply String.eqb_neq in Hrun, Hwalk, Hswim.
  rewrite Hrun, Hwalk, Hswim. reflexivity.
Qed.

Lemma unknown_label_fallback_witness :
  "unknown-type" <> "Бег"
  /\ "unknown-type" <> "Ходьба"
  /\ "unknown-type" <> "Плавание"
  /\ Ftracker.ShowTrainingInfo (fun x _ => x * x) 1000 "unknown-type" 1 70 170 25 20
     = "неизвестный тип тренировки".
Proof.
  assert (Hrun : "unknown-type" <> "Бег") by discriminate.
  assert (Hwalk : "unknown-type" <> "Ходьба") by discriminate.
  assert (Hswim : "unknown-type" <> "Плавание") by discriminate.
  split; [exact Hrun|]. split; [exact Hwalk|]. split; [exact Hswim|].
  exact (proj1 (unknown_label_fallback (fun x _ => x * x) 1000 "unknown-type"
                  1 70 170 25 20 Hrun Hwalk Hswim)).
Defined.

(** ** The two versions *)

Lemma running_calories_agree (action : Z) (weight duration : float) :
  Ftracker.RunningSpentCalories action weight duration
  = Part000.RunningSpentCalories weight duration (Part000.meanSpeed action duration).
Proof. reflexivity. Qed.

Lemma walking_calories_agree (Pow : float -> float -> float) (action : Z)
    (duration weight height : float) :
  Ftracker.WalkingSpentCalories Pow action duration weight height
  = Part000.WalkingSpentCalories Pow duration weight height
      (Part000.meanSpeed action duration).
Proof. reflexivity. Qed.

Lemma swimming_calories_agree (lengthPool countPool : Z) (duration weight : float) :
  Ftracker.SwimmingSpentCalories lengthPool countPool duration weight
  = Part000.SwimmingSpentCalories duration weight
      (Part000.swimmingMeanSpeed lengthPool countPool duration).
Proof. reflexivity. Qed.

(** C10: the two versions of the dispatcher return the same string on
    every input: handing the speed to the calorie functions or letting
    them compute it again makes no difference. *)
Theorem versions_agree :
  forall (Pow : float -> float -> float) (action : Z) (trainingType : string)
         (duration weight height : float) (lengthPool countPool : Z),
    Ftracker.ShowTrainingInfo Pow action trainingType duration weight height
      lengthPool countPool
    = Part000.ShowTrainingInfo Pow action trainingType duration weight height
        lengthPool countPool.
Proof.
  intros Pow action trainingType duration weight height lengthPool countPool.
  unfold Ftracker.ShowTrainingInfo, Part000.ShowTrainingInfo.
  destruct (String.eqb trainingType "Бег").
  - rewrite running_calories_agree. reflexivity.
  - destruct (String.eqb trainingType "Ходьба").
    + rewrite walking_calories_agree. reflexivity.
    + destruct (String.eqb trainingType "Плавание").
      * rewrite swimming_calories_agree. reflexivity.
      * reflexivity.
Qed.

(** * Further properties: edge values and the shape of the report *)

(** ** Zeros and not-a-number through the operations *)

Lemma eqb_zero_isZero (x : float) : (x =? 0) = true -> isZero x = true.
Proof.
  unfold isZero. rewrite eqb_spec.
  change (Prim2SF 0) with (S754_zero false).
  destruct (Prim2SF x) as [s|s| |s m e]; try reflexivity; try discriminate.
  - destruct s; discriminate.
  - destruct s; discriminate.
Qed.

Lemma isZero_eqb_zero (x : float) : isZero x = true -> (x =? 0) = true.
Proof.
  unfold isZero. rewrite eqb_spec.
  change (Prim2SF 0) with (S754_zero false).
  destruct (Prim2SF x) as [s|s| |s m e]; try discriminate. reflexivity.
Qed.

Lemma isZero_isZeroOrNaN (x : float) : isZero x = true -> isZeroOrNaN x = true.
Proof.
  unfold isZero, isZeroOrNaN.
  destruct (Prim2SF x) as [s|s| |s m e]; try discriminate; reflexivity.
Qed.

Lemma isZeroOrNaN_mul_zero_r (x d : float) :
  isZero d = true -> isZeroOrNaN (x * d) = true.
Proof.
  unfold isZero, isZeroOrNaN. rewrite mul_spec.
  destruct (Prim2SF d) as [t|t| |t n f]; try discriminate; intros _.
  destruct (Prim2SF x) as [s|s| |s m e]; reflexivity.
Qed.

Lemma isZeroOrNaN_mul_l (x y : float) :
  isZeroOrNaN x = true -> isZeroOrNaN (x * y) = true.
Proof.
  unfold isZeroOrNaN. rewrite mul_spec.
  destruct (Prim2SF x) as [s|s| |s m e]; try discriminate; intros _;
    destruct (Prim2SF y) as [t|t| |t n f]; reflexivity.
Qed.

Lemma isZeroOrNaN_div_l (x y : float) :
  isZeroOrNaN x = true -> isZeroOrNaN (x / y) = true.
Proof.
  unfold isZeroOrNaN. rewrite div_spec.
  destruct (Prim2SF x) as [s|s| |s m e]; try discriminate; intros _;
    destruct (Prim2SF y) as [t|t| |t n f]; reflexivity.
Qed.

Lemma isZeroOrNaN_add (x y : float) :
  isZeroOrNaN x = true -> isZeroOrNaN y = true -> isZeroOrNaN (x + y) = true.
Proof.
  unfold isZeroOrNaN. rewrite add_spec.
  destruct (Prim2SF x) as [s|s| |s m e]; try discriminate; intros _;
    destruct (Prim2SF y) as [t|t| |t n f]; try discriminate; intros _;
    try reflexivity.
  destruct s, t; reflexivity.
Qed.

Lemma isZero_mul_finite (x y : float) :
  isZero x = true -> isFinite y = true -> isZero (x * y) = true.
Proof.
  unfold isZero, isFinite. rewrite mul_spec.
  destruct (Prim2SF x) as [s|s| |s m e]; try discriminate; intros _;
    destruct (Prim2SF y) as [t|t| |t n f]; try discriminate; reflexivity.
Qed.

Lemma isZero_div_finite (x y : float) :
  isZero x = true -> isFinite y = true -> isZero y = false ->
  isZero (x / y) = true.
Proof.
  unfold isZero, isFinite. rewrite div_spec.
  destruct (Prim2SF x) as [s|s| |s m e]; try discriminate; intros _;
    destruct (Prim2SF y) as [t|t| |t n f]; try discriminate; reflexivity.
Qed.

Lemma mul_nan_r (x : float) : x * nan = nan.
Proof.
  apply Prim2SF_inj. rewrite mul_spec.
  change (Prim2SF nan) with S754_nan.
  destruct (Prim2SF x) as [s|s| |s m e]; reflexivity.
Qed.

Lemma mul_nan_l (y : float) : nan * y = nan.
Proof.
  apply Prim2SF_inj. rewrite mul_spec.
  change (Prim2SF nan) with S754_nan. reflexivity.
Qed.

Lemma div_nan_r (x : float) : x / nan = nan.
Proof.
  apply Prim2SF_inj. rewrite div_spec.
  change (Prim2SF nan) with S754_nan.
  destruct (Prim2SF x) as [s|s| |s m e]; reflexivity.
Qed.

(** ** A duration that is not a number *)

Lemma meanSpeed_nan (action : Z) : Ftracker.meanSpeed action nan = nan.
Proof.
  unfold Ftracker.meanSpeed. change (nan =? 0) with false. apply div_nan_r.
Qed.

Lemma swimmingMeanSpeed_nan (lengthPool countPool : Z) :
  Ftracker.swimmingMeanSpeed lengthPool countPool nan = nan.
Proof.
  unfold Ftracker.swimmingMeanSpeed. change (nan =? 0) with false.
  apply div_nan_r.
Qed.

Lemma mul_nan_tail (x m : float) : x * nan * m = nan.
Proof.
  rewrite mul_nan_r. apply mul_nan_l.
Qed.

(** The guard [duration == 0] lets a not-a-number duration through: both
    speeds and the three calorie values are then not a number, whatever
    the other inputs are. *)
Theorem nan_duration_propagates :
  forall (Pow : float -> float -> float) (action : Z)
         (weight height : float) (lengthPool countPool : Z),
    Ftracker.meanSpeed action nan = nan
    /\ Ftracker.swimmingMeanSpeed lengthPool countPool nan = nan
    /\ Ftracker.RunningSpentCalories action weight nan = nan
    /\ Ftracker.WalkingSpentCalories Pow action nan weight height = nan
    /\ Ftracker.SwimmingSpentCalories lengthPool countPool nan weight = nan.
Proof.
  intros Pow action weight height lengthPool countPool.
  split; [apply meanSpeed_nan|].
  split; [apply swimmingMeanSpeed_nan|].
  split; [apply mul_nan_tail|].
  split; [apply mul_nan_tail|].
  apply mul_nan_r.
Qed.

Lemma known_label_cases (trainingType : string) :
  isLabel trainingType = true ->
  trainingType = "Бег" \/ trainingType = "Ходьба" \/ trainingType = "Плавание".
Proof.
  unfold isLabel. intro H.
  apply orb_true_iff in H. destruct H as [H|H].
  - apply orb_true_iff in H. destruct H as [H|H].
    + left. apply String.eqb_eq. exact H.
    + right. left. apply String.eqb_eq. exact H.
  - right. right. apply String.eqb_eq. exact H.
Qed.

(** With a label it knows, the dispatcher reports the step distance next
    to some speed and some calories, each a value of the package. *)
Lemma known_label_report (Pow : float -> float -> float) (action : Z)
    (trainingType : string) (duration weight height : float)
    (lengthPool countPool : Z) :
  isLabel trainingType = true ->
  exists speed calories : float,
    (speed = Ftracker.meanSpeed action duration
     \/ speed = Ftracker.swimmingMeanSpeed lengthPool countPool duration)
    /\ (calories = Ftracker.RunningSpentCalories action weight duration
        \/ calories = Ftracker.WalkingSpentCalories Pow action duration weight height
        \/ calories = Ftracker.SwimmingSpentCalories lengthPool countPool duration weight)
    /\ Ftracker.ShowTrainingInfo Pow action trainingType duration weight height
         lengthPool countPool
       = reportOf trainingType duration (Ftracker.distance action) speed calories.
Proof.
  intro H. destruct (known_label_cases _ H) as [-> | [-> | ->]].
  - exists (Ftracker.meanSpeed action duration),
      (Ftracker.RunningSpentCalories action weight duration).
    split; [left; reflexivity|]. split; [left; reflexivity|].
    apply Sprintf_reportFormat.
  - exists (Ftracker.meanSpeed action duration),
      (Ftracker.WalkingSpentCalories Pow action duration weight height).
    split; [left; reflexivity|]. split; [right; left; reflexivity|].
    apply Sprintf_reportFormat.
  - exists (Ftracker.swimmingMeanSpeed lengthPool countPool duration),
      (Ftracker.SwimmingSpentCalories lengthPool countPool duration weight).
    split; [right; reflexivity|]. split; [right; right; reflexivity|].
    apply Sprintf_reportFormat.
Qed.

(** The report of a training whose duration is not a number: the duration,
    the speed and the calories all read NaN, the distance is still the
    number of the step formula. *)
Theorem nan_duration_report :
  forall (Pow : float -> float -> float) (action : Z) (trainingType : string)
         (weight height : float) (lengthPool countPool : Z),
    isLabel trainingType = true ->
    Ftracker.ShowTrainingInfo Pow action trainingType nan weight height
      lengthPool countPool
    = "Тип тренировки: " ++ trainingType ++ nl
        ++ "Длительность: NaN ч." ++ nl
        ++ "Дистанция: " ++ fmtFloat2 (Ftracker.distance action) ++ " км." ++ nl
        ++ "Скорость: NaN км/ч" ++ nl
        ++ "Сожгли калорий: NaN" ++ nl.
Proof.
  intros Pow action trainingType weight height lengthPool countPool H.
  destruct (known_label_report Pow action trainingType nan weight height
              lengthPool countPool H) as (speed & calories & Hs & Hc & ->).
  assert (Hspeed : speed = nan).
  { destruct Hs as [-> | ->];
      [apply meanSpeed_nan | apply swimmingMeanSpeed_nan]. }
  assert (Hcal : calories = nan).
  { destruct Hc as [-> | [-> | ->]];
      [apply mul_nan_tail | apply mul_nan_tail | apply mul_nan_r]. }
  rewrite Hspeed, Hcal. reflexivity.
Qed.

Lemma nan_duration_report_witness :
  isLabel "Плавание" = true
  /\ Ftracker.ShowTrainingInfo (fun x _ => x * x) 1000 "Плавание" nan 70 170 25 20
     = "Тип тренировки: " ++ "Плавание" ++ nl
         ++ "Длительность: NaN ч." ++ nl
         ++ "Дистанция: " ++ fmtFloat2 (Ftracker.distance 1000) ++ " км." ++ nl
         ++ "Скорость: NaN км/ч" ++ nl
         ++ "Сожгли калорий: NaN" ++ nl.
Proof.
  split; [reflexivity|].
  apply (nan_duration_report (fun x _ => x * x) 1000 "Плавание" 70 170 25 20).
  reflexivity.
Defined.

(** ** A zero duration, a zero weight *)

Lemma isZeroOrNaN_tail (x d m : float) :
  isZero d = true -> isZeroOrNaN (x * d * m) = true.
Proof.
  intro Hd. apply isZeroOrNaN_mul_l, isZeroOrNaN_mul_zero_r, Hd.
Qed.

(** With a zero duration (of either sign) each calorie function returns a
    zero or not a number, never another value, whatever the other inputs
    are; the running calories are zero as soon as the weight is finite. *)
Theorem zero_duration_calories :
  forall (Pow : float -> float -> float) (action : Z)
         (duration weight height : float) (lengthPool countPool : Z),
    (duration =? 0) = true ->
    isZeroOrNaN (Ftracker.RunningSpentCalories action weight duration) = true
    /\ isZeroOrNaN (Ftracker.WalkingSpentCalories Pow action duration weight height)
       = true
    /\ isZeroOrNaN (Ftracker.SwimmingSpentCalories lengthPool countPool duration weight)
       = true
    /\ (isFinite weight = true ->
        (Ftracker.RunningSpentCalories action weight duration =? 0) = true).
Proof.
  intros Pow action duration weight height lengthPool countPool Hd.
  pose proof (eqb_zero_isZero _ Hd) as Hz.
  split; [apply isZeroOrNaN_tail, Hz|].
  split; [apply isZeroOrNaN_tail, Hz|].
  split; [apply isZeroOrNaN_mul_zero_r, Hz|].
  intro Hw. apply isZero_eqb_zero.
  unfold Ftracker.RunningSpentCalories, Ftracker.meanSpeed. rewrite Hd.
  change (Ftracker.runningCaloriesMeanSpeedMultiplier * 0
          * Ftracker.runningCaloriesMeanSpeedShift) with 0.
  apply isZero_mul_finite; [|reflexivity].
  apply isZero_mul_finite.
  - apply isZero_div_finite; [|reflexivity|reflexivity].
    apply isZero_mul_finite; [reflexivity|exact Hw].
  - unfold isFinite. unfold isZero in Hz.
    destruct (Prim2SF duration); try discriminate; reflexivity.
Qed.

Lemma zero_duration_calories_witness :
  (0 =? 0) = true
  /\ isZeroOrNaN (Ftracker.RunningSpentCalories 1000 70 0) = true
  /\ isZeroOrNaN (Ftracker.WalkingSpentCalories (fun x _ => x * x) 1000 0 70 170)
     = true
  /\ isZeroOrNaN (Ftracker.SwimmingSpentCalories 25 20 0 70) = true
  /\ (isFinite 70 = true ->
      (Ftracker.RunningSpentCalories 1000 70 0 =? 0) = true).
Proof.
  split; [reflexivity|].
  apply (zero_duration_calories (fun x _ => x * x) 1000 0 70 170 25 20).
  reflexivity.
Defined.

(** With a zero weight (of either sign) each calorie function returns a
    zero or not a number, whatever the other inputs are. *)
Theorem zero_weight_calories :
  forall (Pow : float -> float -> float) (action : Z)
         (duration weight height : float) (lengthPool countPool : Z),
    (weight =? 0) = true ->
    isZeroOrNaN (Ftracker.RunningSpentCalories action weight duration) = true
    /\ isZeroOrNaN (Ftracker.WalkingSpentCalories Pow action duration weight height)
       = true
    /\ isZeroOrNaN (Ftracker.SwimmingSpentCalories lengthPool countPool duration weight)
       = true.
Proof.
  intros Pow action duration weight height lengthPool countPool Hw.
  pose proof (eqb_zero_isZero _ Hw) as Hz.
  split; [|split].
  - unfold Ftracker.RunningSpentCalories.
    do 2 apply isZeroOrNaN_mul_l. apply isZeroOrNaN_div_l.
    apply isZeroOrNaN_mul_zero_r, Hz.
  - unfold Ftracker.WalkingSpentCalories.
    do 2 apply isZeroOrNaN_mul_l.
    apply isZeroOrNaN_add; apply isZeroOrNaN_mul_zero_r, Hz.
  - unfold Ftracker.SwimmingSpentCalories.
    apply isZeroOrNaN_mul_l, isZeroOrNaN_mul_zero_r, Hz.
Qed.

Lemma zero_weight_calories_witness :
  (0 =? 0) = true
  /\ isZeroOrNaN (Ftracker.RunningSpentCalories 1000 0 1) = true
  /\ isZeroOrNaN (Ftracker.WalkingSpentCalories (fun x _ => x * x) 1000 1 0 170)
     = true
  /\ isZeroOrNaN (Ftracker.SwimmingSpentCalories 25 20 1 0) = true.
Proof.
  split; [reflexivity|].
  apply (zero_weight_calories (fun x _ => x * x) 1000 1 0 170 25 20).
  reflexivity.
Defined.

(** In the version whose calorie functions take the speed, a zero duration
    gives a zero or not a number for every speed handed over. *)
Theorem part000_zero_duration_calories :
  forall (Pow : float -> float -> float) (duration weight height speed : float),
    (duration =? 0) = true ->
    isZeroOrNaN (Part000.RunningSpentCalories weight duration speed) = true
    /\ isZeroOrNaN (Part000.WalkingSpentCalories Pow duration weight height speed)
       = true
    /\ isZeroOrNaN (Part000.SwimmingSpentCalories duration weight speed) = true.
Proof.
  intros Pow duration weight height speed Hd.
  pose proof (eqb_zero_isZero _ Hd) as Hz.
  split; [apply isZeroOrNaN_tail, Hz|].
  split; [apply isZeroOrNaN_tail, Hz|].
  apply isZeroOrNaN_mul_zero_r, Hz.
Qed.

Lemma part000_zero_duration_calories_witness :
  (0 =? 0) = true
  /\ isZeroOrNaN (Part000.RunningSpentCalories 70 0 0.65) = true
  /\ isZeroOrNaN (Part000.WalkingSpentCalories (fun x _ => x * x) 0 70 170 0.65)
     = true
  /\ isZeroOrNaN (Part000.SwimmingSpentCalories 0 70 0.5) = true.
Proof.
  split; [reflexivity|].
  apply (part000_zero_duration_calories (fun x _ => x * x) 0 70 170 0.65).
  reflexivity.
Defined.

(** ** The shape of what the dispatcher returns *)

(** The dispatcher returns the fallback message exactly for the labels it
    does not know: with one of its three labels the result is never that
    message, whatever the numbers are, so a caller can tell the two
    outcomes apart by the string alone. *)
Theorem fallback_iff_unknown_label :
  forall (Pow : float -> float -> float) (action : Z) (trainingType : string)
         (duration weight height : float) (lengthPool countPool : Z),
    Ftracker.ShowTrainingInfo Pow action trainingType duration weight height
      lengthPool countPool
    = "неизвестный тип тренировки"
    <-> isLabel trainingType = false.
Proof.
  intros Pow action trainingType duration weight height lengthPool countPool.
  destruct (isLabel trainingType) eqn:Hl.
  - split; [|discriminate].
    destruct (known_label_report Pow action trainingType duration weight height
                lengthPool countPool Hl) as (speed & calories & _ & _ & ->).
    unfold reportOf. simpl. intro H. discriminate H.
  - split; [reflexivity|intros _].
    unfold isLabel in Hl.
    apply orb_false_iff in Hl. destruct Hl as [Hl Hswim].
    apply orb_false_iff in Hl. destruct Hl as [Hrun Hwalk].
    unfold Ftracker.ShowTrainingInfo. rewrite Hrun, Hwalk, Hswim. reflexivity.
Qed.

Lemma countNL_app (s t : string) :
  countNL (s ++ t) = (countNL s + countNL t)%nat.
Proof.
  induction s as [|c s IH]; simpl; [reflexivity|].
  rewrite IH. apply Nat.add_assoc.
Qed.

Lemma countNL_digits (u : Decimal.uint) :
  countNL (NilEmpty.string_of_uint u) = O.
Proof.
  induction u; simpl; assumption || reflexivity.
Qed.

Lemma countNL_decimal (n : Z) : countNL (decimal n) = O.
Proof.
  unfold decimal, NilZero.string_of_uint.
  destruct (N.to_uint (Z.to_N n)); try apply countNL_digits. reflexivity.
Qed.

Lemma countNL_digit (d : Z) :
  (0 <= d <= 9)%Z -> countNL (String (digit d) EmptyString) = O.
Proof.
  intro Hd.
  assert (H : (d = 0 \/ d = 1 \/ d = 2 \/ d = 3 \/ d = 4 \/ d = 5 \/ d = 6
               \/ d = 7 \/ d = 8 \/ d = 9)%Z) by lia.
  repeat (destruct H as [-> | H]; [reflexivity|]). subst d. reflexivity.
Qed.

Lemma countNL_fixed2 (h : Z) : countNL (fixed2 h) = O.
Proof.
  unfold fixed2. rewrite !countNL_app, countNL_decimal.
  change (String (digit (h mod 100 / 10)) (String (digit (h mod 10)) EmptyString))
    with (String (digit (h mod 100 / 10)) EmptyString
            ++ String (digit (h mod 10)) EmptyString).
  rewrite countNL_app, !countNL_digit; [reflexivity| |].
  - pose proof (Z.mod_pos_bound h 10). lia.
  - pose proof (Z.mod_pos_bound (h mod 100) 10).
    pose proof (Z.mod_pos_bound h 100).
    assert (0 <= h mod 100 / 10 < 10)%Z.
    { split; [apply Z.div_pos; lia | apply Z.div_lt_upper_bound; lia]. }
    lia.
Qed.

(** No float, printed with two decimals, holds a line feed. *)
Lemma countNL_fmtFloat2 (x : float) : countNL (fmtFloat2 x) = O.
Proof.
  unfold fmtFloat2.
  destruct (Prim2SF x) as [s|s| |s m e]; try (destruct s); try reflexivity.
  - rewrite countNL_app, countNL_fixed2. reflexivity.
  - apply countNL_fixed2.
Qed.

Lemma string_append_assoc (a b c : string) :
  ((a ++ b) ++ c)%string = (a ++ b ++ c)%string.
Proof.
  induction a as [|x a IH]; simpl; [reflexivity|]. rewrite IH. reflexivity.
Qed.

(** With a label it knows the dispatcher returns exactly five lines: five
    texts without a line feed, each closed by a line feed, and nothing
    after the last one, whatever the numbers are (infinite and
    not-a-number values included); the fallback message has no line
    feed. *)
Theorem report_has_five_lines :
  forall (Pow : float -> float -> float) (action : Z) (trainingType : string)
         (duration weight height : float) (lengthPool countPool : Z),
    (isLabel trainingType = true ->
     (exists l1 l2 l3 l4 l5 : string,
         countNL l1 = O /\ countNL l2 = O /\ countNL l3 = O
         /\ countNL l4 = O /\ countNL l5 = O
         /\ Ftracker.ShowTrainingInfo Pow action trainingType duration weight
              height lengthPool countPool
            = l1 ++ nl ++ l2 ++ nl ++ l3 ++ nl ++ l4 ++ nl ++ l5 ++ nl)
     /\ countNL (Ftracker.ShowTrainingInfo Pow action trainingType duration
                   weight height lengthPool countPool) = 5%nat)
    /\ (isLabel trainingType = false ->
        countNL (Ftracker.ShowTrainingInfo Pow action trainingType duration
                   weight height lengthPool countPool) = O).
Proof.
  intros Pow action trainingType duration weight height lengthPool countPool.
  split; intro Hl.
  - destruct (known_label_report Pow action trainingType duration weight height
                lengthPool countPool Hl) as (speed & calories & _ & _ & ->).
    assert (Ht : countNL trainingType = O)
      by (destruct (known_label_cases _ Hl) as [-> | [-> | ->]]; reflexivity).
    split.
    + exists ("Тип тренировки: " ++ trainingType),
        ("Длительность: " ++ fmtFloat2 duration ++ " ч."),
        ("Дистанция: " ++ fmtFloat2 (Ftracker.distance action) ++ " км."),
        ("Скорость: " ++ fmtFloat2 speed ++ " км/ч"),
        ("Сожгли калорий: " ++ fmtFloat2 calories).
      rewrite !countNL_app, !countNL_fmtFloat2, Ht.
      do 5 (split; [reflexivity|]).
      unfold reportOf. rewrite !string_append_assoc. reflexivity.
    + unfold reportOf. rewrite !countNL_app, !countNL_fmtFloat2, Ht.
      reflexivity.
  - unfold isLabel in Hl.
    apply orb_false_iff in Hl. destruct Hl as [Hl Hswim].
    apply orb_false_iff in Hl. destruct Hl as [Hrun Hwalk].
    unfold Ftracker.ShowTrainingInfo. rewrite Hrun, Hwalk, Hswim. reflexivity.
Qed.

Lemma report_has_five_lines_witness :
  isLabel "Бег" = true
  /\ (exists l1 l2 l3 l4 l5 : string,
         countNL l1 = O /\ countNL l2 = O /\ countNL l3 = O
         /\ countNL l4 = O /\ countNL l5 = O
         /\ Ftracker.ShowTrainingInfo (fun x _ => x * x) 1000 "Бег" 1 70 170 0 0
            = l1 ++ nl ++ l2 ++ nl ++ l3 ++ nl ++ l4 ++ nl ++ l5 ++ nl)
  /\ countNL (Ftracker.ShowTrainingInfo (fun x _ => x * x) 1000 "Бег" 1 70 170 0 0)
     = 5%nat.
Proof.
  split; [reflexivity|].
  apply (proj1 (report_has_five_lines (fun x _ => x * x) 1000 "Бег" 1 70 170 0 0)).
  reflexivity.
Defined.

(** ** The distance over the step counts of a day *)

Lemma lex_lt_trans (e1 e2 e3 : Z) (m1 m2 m3 : positive) :
  match (e1 ?= e2)%Z with Lt => Lt | Gt => Gt | Eq => Pos.compare_cont Eq m1 m2 end = Lt ->
  match (e2 ?= e3)%Z with Lt => Lt | Gt => Gt | Eq => Pos.compare_cont Eq m2 m3 end = Lt ->
  match (e1 ?= e3)%Z with Lt => Lt | Gt => Gt | Eq => Pos.compare_cont Eq m1 m3 end = Lt.
Proof.
  change (Pos.compare_cont Eq) with Pos.compare.
  destruct (Z.compare_spec e1 e2), (Z.compare_spec e2 e3), (Z.compare_spec e1 e3);
    try discriminate; try lia; try reflexivity.
  rewrite !Pos.compare_lt_iff. lia.
Qed.

Lemma lex_gt_trans (e1 e2 e3 : Z) (m1 m2 m3 : positive) :
  match (e1 ?= e2)%Z with
  | Lt => Gt | Gt => Lt | Eq => CompOpp (Pos.compare_cont Eq m1 m2) end = Lt ->
  match (e2 ?= e3)%Z with
  | Lt => Gt | Gt => Lt | Eq => CompOpp (Pos.compare_cont Eq m2 m3) end = Lt ->
  match (e1 ?= e3)%Z with
  | Lt => Gt | Gt => Lt | Eq => CompOpp (Pos.compare_cont Eq m1 m3) end = Lt.
Proof.
  change (Pos.compare_cont Eq) with Pos.compare.
  destruct (Z.compare_spec e1 e2), (Z.compare_spec e2 e3), (Z.compare_spec e1 e3);
    try discriminate; try lia; try reflexivity.
  rewrite <- !Pos.compare_antisym, !Pos.compare_lt_iff. lia.
Qed.

Lemma SFltb_trans (x y z : spec_float) :
  SFltb x y = true -> SFltb y z = true -> SFltb x z = true.
Proof.
  unfold SFltb.
  destruct x as [sx|sx| |sx mx ex], y as [sy|sy| |sy my ey],
    z as [sz|sz| |sz mz ez];
    try destruct sx; try destruct sy; try destruct sz;
    simpl; try discriminate; try reflexivity; intros Hxy Hyz.
  - assert (H := lex_gt_trans ex ey ez mx my mz).
    destruct (match (ex ?= ey)%Z with
              | Lt => Gt | Gt => Lt | Eq => CompOpp (Pos.compare_cont Eq mx my) end);
      try discriminate.
    destruct (match (ey ?= ez)%Z with
              | Lt => Gt | Gt => Lt | Eq => CompOpp (Pos.compare_cont Eq my mz) end);
      try discriminate.
    rewrite H; reflexivity.
  - assert (H := lex_lt_trans ex ey ez mx my mz).
    destruct (match (ex ?= ey)%Z with
              | Lt => Lt | Gt => Gt | Eq => Pos.compare_cont Eq mx my end);
      try discriminate.
    destruct (match (ey ?= ez)%Z with
              | Lt => Lt | Gt => Gt | Eq => Pos.compare_cont Eq my mz end);
      try discriminate.
    rewrite H; reflexivity.
Qed.

(** The comparison [<] of [float64] is transitive. *)
Lemma ltb_trans (x y z : float) :
  (x <? y) = true -> (y <? z) = true -> (x <? z) = true.
Proof.
  rewrite !ltb_spec. apply SFltb_trans.
Qed.

Lemma distance_step_lt (action : Z) :
  (0 <= action < 131072)%Z ->
  (0 <=? Ftracker.distance action) = true
  /\ (Ftracker.distance action <? Ftracker.distance (action + 1)) = true.
Proof.
  intro Ha.
  apply andb_true_iff.
  apply (allFrom_sound
           (fun a => (0 <=? Ftracker.distance a)
                     && (Ftracker.distance a <? Ftracker.distance (a + 1)))
           17 0%Z).
  - vm_cast_no_check (eq_refl true).
  - change (2 ^ Z.of_nat 17)%Z with 131072%Z. lia.
Qed.

(** Up to 2^17 steps the distance is strictly increasing in the step
    count: of two counts the larger one gives the larger distance, no two
    counts round to the same distance, and no distance is negative. *)
Theorem distance_strictly_increasing :
  forall a b : Z, (0 <= a)%Z -> (a < b)%Z -> (b <= 131072)%Z ->
    (0 <=? Ftracker.distance a) = true
    /\ (Ftracker.distance a <? Ftracker.distance b) = true.
Proof.
  intros a b Ha Hab Hb.
  split; [apply distance_step_lt; lia|].
  assert (Hn : forall n : nat, (a + 1 + Z.of_nat n <= 131072)%Z ->
             (Ftracker.distance a <? Ftracker.distance (a + 1 + Z.of_nat n)) = true).
  { induction n as [|n IH]; intro Hle.
    - replace (a + 1 + Z.of_nat 0)%Z with (a + 1)%Z by lia.
      apply distance_step_lt. lia.
    - apply ltb_trans with (y := Ftracker.distance (a + 1 + Z.of_nat n)).
      + apply IH. lia.
      + replace (a + 1 + Z.of_nat (S n))%Z with (a + 1 + Z.of_nat n + 1)%Z by lia.
        apply distance_step_lt. lia. }
  replace b with (a + 1 + Z.of_nat (Z.to_nat (b - a - 1)))%Z by lia.
  apply Hn. lia.
Qed.

Lemma distance_strictly_increasing_witness :
  (0 <= 1000)%Z /\ (1000 < 10000)%Z /\ (10000 <= 131072)%Z
  /\ (0 <=? Ftracker.distance 1000) = true
  /\ (Ftracker.distance 1000 <? Ftracker.distance 10000) = true.
Proof.
  split; [lia|]. split; [lia|]. split; [lia|].
  apply (distance_strictly_increasing 1000 10000); lia.
Defined.

(** ** Pool length and lap count, and a training without steps *)

(** The product of two [float64] values does not depend on their order. *)
Lemma mul_comm (x y : float) : x * y = y * x.
Proof.
  apply Prim2SF_inj. rewrite !mul_spec. unfold SF64mul, SFmul.
  destruct (Prim2SF x) as [s|s| |s m e], (Prim2SF y) as [t|t| |t n f];
    try reflexivity; try (rewrite (xorb_comm s t); reflexivity).
  rewrite (xorb_comm s t), (Pos.mul_comm m n), (Z.add_comm e f). reflexivity.
Qed.

(** The swimming speed and the swimming calories are the same when the
    pool length and the lap count are exchanged: only their product
    counts. *)
Theorem swimming_symmetric_in_pool_and_laps :
  forall (lengthPool countPool : Z) (duration weight : float),
    Ftracker.swimmingMeanSpeed lengthPool countPool duration
    = Ftracker.swimmingMeanSpeed countPool lengthPool duration
    /\ Ftracker.SwimmingSpentCalories lengthPool countPool duration weight
       = Ftracker.SwimmingSpentCalories countPool lengthPool duration weight.
Proof.
  intros lengthPool countPool duration weight.
  assert (H : Ftracker.swimmingMeanSpeed lengthPool countPool duration
              = Ftracker.swimmingMeanSpeed countPool lengthPool duration).
  { unfold Ftracker.swimmingMeanSpeed.
    rewrite (mul_comm (float64 lengthPool) (float64 countPool)). reflexivity. }
  split; [exact H|].
  unfold Ftracker.SwimmingSpentCalories. rewrite H. reflexivity.
Qed.

Lemma isZero_isFinite (x : float) : isZero x = true -> isFinite x = true.
Proof.
  unfold isZero, isFinite.
  destruct (Prim2SF x) as [s|s| |s m e]; try discriminate; reflexivity.
Qed.

(** Without a step, and with a finite weight and a finite duration, the
    distance, the mean speed and the running calories are all zero. *)
Theorem no_step_no_speed_no_running_calories :
  forall weight duration : float,
    isFinite weight = true -> isFinite duration = true ->
    Ftracker.distance 0 = 0
    /\ (Ftracker.meanSpeed 0 duration =? 0) = true
    /\ (Ftracker.RunningSpentCalories 0 weight duration =? 0) = true.
Proof.
  intros weight duration Hw Hd.
  assert (Hs : isZero (Ftracker.meanSpeed 0 duration) = true).
  { unfold Ftracker.meanSpeed.
    destruct (duration =? 0) eqn:Hz; [reflexivity|].
    change (Ftracker.distance 0) with 0. cbv zeta.
    apply isZero_div_finite; [reflexivity|exact Hd|].
    destruct (isZero duration) eqn:Hz'; [|reflexivity].
    apply isZero_eqb_zero in Hz'. congruence. }
  split; [reflexivity|]. split; [apply isZero_eqb_zero, Hs|].
  apply isZero_eqb_zero. unfold Ftracker.RunningSpentCalories.
  apply isZero_mul_finite; [|reflexivity].
  apply isZero_mul_finite; [|exact Hd].
  apply isZero_div_finite; [|reflexivity|reflexivity].
  apply isZero_mul_finite; [|exact Hw].
  apply isZero_mul_finite; [|reflexivity].
  rewrite mul_comm. apply isZero_mul_finite; [exact Hs|reflexivity].
Qed.

Lemma no_step_no_speed_no_running_calories_witness :
  isFinite 70 = true /\ isFinite 1 = true
  /\ Ftracker.distance 0 = 0
  /\ (Ftracker.meanSpeed 0 1 =? 0) = true
  /\ (Ftracker.RunningSpentCalories 0 70 1 =? 0) = true.
Proof.
  split; [reflexivity|]. split; [reflexivity|].
  apply (no_step_no_speed_no_running_calories 70 1); reflexivity.
Defined.

(** * The rounding error of the distance

    The Standard Library specifies each binary64 operation by a function
    on [spec_float] that shifts the exact result to 53 bits and rounds it
    to nearest even.  This part follows the exact value through that
    function: a conversion, a product or a quotient whose result is in the
    normal range differs from the exact result by a relative error of at
    most 2^-53.  The distance is one conversion, one product and one
    quotient. *)

Section RoundingError.

Local Open Scope Z_scope.

Lemma pow2_pos (e : Z) : (0 < pow2 e)%Q.
Proof. unfold pow2. apply Qpower_0_lt. reflexivity. Qed.

Lemma pow2_add (a b : Z) : (pow2 (a + b) == pow2 a * pow2 b)%Q.
Proof. unfold pow2. apply Qpower_plus. discriminate. Qed.

Lemma pow2_nonneg_Z (e : Z) : 0 <= e -> (pow2 e == inject_Z (2 ^ e))%Q.
Proof.
  intro He. unfold pow2. rewrite (Zpower_Qpower 2 e He). reflexivity.
Qed.

Lemma digits2_pos_bounds (p : positive) :
  2 ^ (Zpos (digits2_pos p) - 1) <= Zpos p < 2 ^ Zpos (digits2_pos p).
Proof.
  induction p as [p IH|p IH|]; simpl digits2_pos.
  - rewrite Pos2Z.inj_succ.
    replace (Z.succ (Zpos (digits2_pos p)) - 1) with (Z.succ (Zpos (digits2_pos p) - 1)) by lia.
    rewrite !Z.pow_succ_r by lia. lia.
  - rewrite Pos2Z.inj_succ.
    replace (Z.succ (Zpos (digits2_pos p)) - 1) with (Z.succ (Zpos (digits2_pos p) - 1)) by lia.
    rewrite !Z.pow_succ_r by lia. lia.
  - simpl. lia.
Qed.

Lemma digits2_pos_unique (p : positive) (d : Z) :
  2 ^ (d - 1) <= Zpos p < 2 ^ d -> Zpos (digits2_pos p) = d.
Proof.
  intros [Hlo Hhi].
  destruct (digits2_pos_bounds p) as [Blo Bhi].
  set (D := Zpos (digits2_pos p)) in *.
  assert (HD : 0 < D) by (unfold D; lia).
  destruct (Z.lt_trichotomy D d) as [Hlt|[Heq|Hgt]]; [|exact Heq|].
  - assert (2 ^ D <= 2 ^ (d - 1)) by (apply Z.pow_le_mono_r; lia). lia.
  - assert (0 <= d).
    { destruct (Z_lt_le_dec d 0) as [Hneg|]; [|lia].
      rewrite (Z.pow_neg_r 2 d Hneg) in Hhi. lia. }
    assert (2 ^ d <= 2 ^ (D - 1)) by (apply Z.pow_le_mono_r; lia). lia.
Qed.

Local Open Scope Q_scope.

Lemma inject_Z_xO (p : positive) : inject_Z (Zpos p~0) == 2 * inject_Z (Zpos p).
Proof. unfold Qeq. simpl. lia. Qed.

Lemma inject_Z_xI (p : positive) : inject_Z (Zpos p~1) == 2 * inject_Z (Zpos p) + 1.
Proof. unfold Qeq. simpl. lia. Qed.

(** Shifting the record right by one bit halves the position it stands for. *)
Lemma shr_1_inbetween (w : Q) (mrs : shr_record) :
  (0 <= shr_m mrs)%Z -> inbetween w mrs ->
  inbetween (w * (1 # 2)) (shr_1 mrs)
  /\ shr_m (shr_1 mrs) = (shr_m mrs / 2)%Z.
Proof.
  destruct mrs as [m r s]. simpl shr_m. intros Hm Hin.
  destruct m as [|[p|p|]|p]; [| | | |lia].
  - split; [|reflexivity].
    destruct r, s; cbv [inbetween shr_1 shr_m shr_r shr_s orb] in *;
      change (inject_Z 0) with 0 in *; lra.
  - split.
    + pose proof (inject_Z_xI p) as E.
      destruct r, s; cbv [inbetween shr_1 shr_m shr_r shr_s orb] in *; lra.
    + simpl shr_m. rewrite Pos2Z.inj_xI.
      apply Z.div_unique with (r := 1%Z); lia.
  - split.
    + pose proof (inject_Z_xO p) as E.
      destruct r, s; cbv [inbetween shr_1 shr_m shr_r shr_s orb] in *; lra.
    + simpl shr_m. rewrite Pos2Z.inj_xO.
      apply Z.div_unique with (r := 0%Z); lia.
  - split; [|reflexivity].
    destruct r, s; cbv [inbetween shr_1 shr_m shr_r shr_s orb] in *;
      change (inject_Z 0) with 0 in *; change (inject_Z 1) with 1 in *; lra.
Qed.

Lemma iter_pos_inv {A : Type} (f : A -> A) (Inv : Z -> A -> Prop) :
  (forall k x, Inv k x -> Inv (k + 1)%Z (f x)) ->
  forall (p : positive) (k : Z) (x : A),
    Inv k x -> Inv (k + Zpos p)%Z (iter_pos f p x).
Proof.
  intro Hstep. induction p as [p IH|p IH|]; intros k x Hx; simpl.
  - replace (k + Zpos p~1)%Z with (k + 1 + Zpos p + Zpos p)%Z by lia.
    apply IH, IH, Hstep, Hx.
  - replace (k + Zpos p~0)%Z with (k + Zpos p + Zpos p)%Z by lia.
    apply IH, IH, Hx.
  - apply Hstep, Hx.
Qed.

Lemma pow2_opp_succ (k : Z) : pow2 (- (k + 1)) == pow2 (- k) * (1 # 2).
Proof.
  replace (- (k + 1))%Z with (- k + -1)%Z by lia.
  rewrite pow2_add. reflexivity.
Qed.

Lemma inbetween_ext (w w' : Q) (mrs : shr_record) :
  w == w' -> inbetween w mrs -> inbetween w' mrs.
Proof.
  intro E. destruct mrs as [m r s]. destruct r, s;
    cbv [inbetween shr_m shr_r shr_s]; lra.
Qed.

(** Shifting by [n] bits divides the position by [2^n]. *)
Lemma shr_inbetween (w : Q) (mrs : shr_record) (e n : Z) :
  (0 <= shr_m mrs)%Z -> (0 <= n)%Z -> inbetween w mrs ->
  exists mrs', shr mrs e n = (mrs', (e + n)%Z)
    /\ inbetween (w * pow2 (- n)) mrs'
    /\ shr_m mrs' = (shr_m mrs / 2 ^ n)%Z.
Proof.
  intros Hm Hn Hin. destruct n as [|p|p]; [| |lia].
  - exists mrs. simpl. rewrite Z.add_0_r, Z.div_1_r. repeat split.
    apply (inbetween_ext w); [|exact Hin].
    change (pow2 (- 0)) with 1. lra.
  - exists (iter_pos shr_1 p mrs). split; [reflexivity|].
    pose (Inv := fun (k : Z) (x : shr_record) =>
                   (0 <= k)%Z /\ (0 <= shr_m x)%Z
                   /\ inbetween (w * pow2 (- k)) x
                   /\ shr_m x = (shr_m mrs / 2 ^ k)%Z).
    assert (H : Inv (0 + Zpos p)%Z (iter_pos shr_1 p mrs)).
    { apply (iter_pos_inv shr_1 Inv).
      - intros k x (Hk & Hx & Hi & Hd).
        destruct (shr_1_inbetween _ _ Hx Hi) as [Hi' Hd'].
        repeat split.
        + lia.
        + rewrite Hd'. apply Z.div_pos; lia.
        + apply (inbetween_ext (w * pow2 (- k) * (1 # 2))); [|exact Hi'].
          rewrite pow2_opp_succ. ring.
        + rewrite Hd', Hd, Z.div_div by lia.
          rewrite Z.pow_add_r by lia. reflexivity.
      - repeat split; try lia.
        + apply (inbetween_ext w); [|exact Hin].
          change (pow2 (- 0)) with 1. lra.
        + rewrite Z.div_1_r. reflexivity. }
    destruct H as (_ & _ & Hi & Hd). simpl in Hi, Hd. split; assumption.
Qed.

Lemma fexp_normal (n : Z) : (-1021 <= n)%Z -> fexp 53 1024 n = (n - 53)%Z.
Proof. unfold fexp, emin. lia. Qed.

Lemma half_ulp_rel (a w g : Q) :
  0 < g -> a - w <= 1 # 2 -> w - a <= 1 # 2 -> 4503599627370496 # 1 <= w ->
  Qabs (a * g - w * g) <= w * g * (1 # 9007199254740992).
Proof.
  intros Hg Hup Hdn Hw. apply Qabs_Qle_condition.
  assert (H1 : (a - w) * g <= (1 # 2) * g)
    by (apply Qmult_le_compat_r; [exact Hup|apply Qlt_le_weak, Hg]).
  assert (H2 : (w - a) * g <= (1 # 2) * g)
    by (apply Qmult_le_compat_r; [exact Hdn|apply Qlt_le_weak, Hg]).
  assert (H3 : (4503599627370496 # 1) * g <= w * g)
    by (apply Qmult_le_compat_r; [exact Hw|apply Qlt_le_weak, Hg]).
  split; lra.
Qed.

(** Rounding to nearest even moves the position by at most one half. *)
Lemma round_nearest_even_near (w : Q) (mrs : shr_record) :
  inbetween w mrs ->
  let mr := round_nearest_even (shr_m mrs) (loc_of_shr_record mrs) in
  (shr_m mrs <= mr <= shr_m mrs + 1)%Z
  /\ inject_Z mr - w <= 1 # 2
  /\ w - inject_Z mr <= 1 # 2
  /\ inject_Z (shr_m mrs) <= w.
Proof.
  destruct mrs as [m r s]. intro Hin.
  assert (E : inject_Z (m + 1) == inject_Z m + 1)
    by (rewrite inject_Z_plus; reflexivity).
  destruct r, s; cbv [inbetween shr_m shr_r shr_s loc_of_shr_record
                       round_nearest_even] in *.
  - repeat split; try lia; lra.
  - destruct (Z.even m); repeat split; try lia; lra.
  - repeat split; try lia; lra.
  - repeat split; try lia; lra.
Qed.

(** The rounding of a located value with at least 53 digits, in the normal
    range: a valid positive float with a 53-bit mantissa, within a relative
    error of 2^-53 of the value. *)
Lemma binary_round_aux_rel (sx : bool) (p : positive) (ex : Z) (lx : location)
    (v : Q) :
  (53 <= Zpos (digits2_pos p))%Z ->
  (-1074 <= ex + Zpos (digits2_pos p) - 53 < 971)%Z ->
  inbetween (v * pow2 (- ex)) (shr_record_of_loc (Zpos p) lx) ->
  exists (m' : positive) (e' : Z),
    binary_round_aux 53 1024 sx (Zpos p) ex lx = S754_finite sx m' e'
    /\ bounded 53 1024 m' e' = true
    /\ Zpos (digits2_pos m') = 53%Z
    /\ (ex + Zpos (digits2_pos p) - 53 <= e' <= ex + Zpos (digits2_pos p) - 52)%Z
    /\ Qabs (inject_Z (Zpos m') * pow2 e' - v) <= v * (1 # 2 ^ 53).
Proof.
  intros HD He Hin.
  set (D := Zpos (digits2_pos p)) in *.
  set (k := (D - 53)%Z).
  assert (Hrec : (0 <= shr_m (shr_record_of_loc (Zpos p) lx))%Z).
  { destruct lx as [|[| |]]; simpl; lia. }
  assert (Hrecm : shr_m (shr_record_of_loc (Zpos p) lx) = Zpos p).
  { destruct lx as [|[| |]]; reflexivity. }
  destruct (shr_inbetween _ _ ex k Hrec ltac:(lia) Hin)
    as (mrs1 & E1 & Hin1 & Hm1).
  rewrite Hrecm in Hm1.
  unfold binary_round_aux, shr_fexp.
  change (Zdigits2 (Zpos p)) with D.
  rewrite fexp_normal by lia.
  replace (D + ex - 53 - ex)%Z with k by lia.
  rewrite E1.
  set (e1 := (ex + k)%Z) in *.
  set (w1 := v * pow2 (- ex) * pow2 (- k)) in *.
  assert (Hv : v == w1 * pow2 e1).
  { unfold w1, e1. rewrite pow2_add.
    assert (H1 : pow2 (- ex) * pow2 ex == 1).
    { rewrite <- pow2_add. replace (- ex + ex)%Z with 0%Z by lia. reflexivity. }
    assert (H2 : pow2 (- k) * pow2 k == 1).
    { rewrite <- pow2_add. replace (- k + k)%Z with 0%Z by lia. reflexivity. }
    transitivity (v * (pow2 (- ex) * pow2 ex) * (pow2 (- k) * pow2 k)).
    - rewrite H1, H2. ring.
    - ring. }
  assert (Hm1b : (2 ^ 52 <= shr_m mrs1 < 2 ^ 53)%Z).
  { rewrite Hm1. destruct (digits2_pos_bounds p) as [Blo Bhi]. fold D in Blo, Bhi.
    assert (Hk : (0 < 2 ^ k)%Z) by (apply Z.pow_pos_nonneg; lia).
    replace (D - 1)%Z with (52 + k)%Z in Blo by lia.
    replace D with (53 + k)%Z in Bhi by lia.
    rewrite Z.pow_add_r in Blo, Bhi by lia.
    split.
    - apply Z.div_le_lower_bound; lia.
    - apply Z.div_lt_upper_bound; lia. }
  destruct (round_nearest_even_near _ _ Hin1) as (Hmr & Hup & Hdn & Hlo).
  set (mr := round_nearest_even (shr_m mrs1) (loc_of_shr_record mrs1)) in *.
  pose proof (pow2_pos e1) as Hg.
  assert (H52 : inject_Z (2 ^ 52) <= w1).
  { apply Qle_trans with (inject_Z (shr_m mrs1)); [|exact Hlo].
    rewrite <- Zle_Qle. lia. }
  destruct mr as [|q|q] eqn:Emr; [lia| |lia].
  destruct (Z_lt_le_dec (Zpos q) (2 ^ 53)) as [Hlt|Hge].
  - assert (Hdq : Zpos (digits2_pos q) = 53%Z)
      by (apply digits2_pos_unique; lia).
    change (Zdigits2 (Zpos q)) with (Zpos (digits2_pos q)).
    rewrite Hdq, fexp_normal by lia.
    replace (53 + e1 - 53 - e1)%Z with 0%Z by lia.
    cbn [shr shr_record_of_loc shr_m].
    exists q, e1.
    replace (e1 <=? 1024 - 53)%Z with true by (symmetry; apply Z.leb_le; lia).
    split; [reflexivity|]. split.
    { unfold bounded, canonical_mantissa. rewrite Hdq, fexp_normal by lia.
      apply andb_true_iff. split; [apply Z.eqb_eq; lia|apply Z.leb_le; lia]. }
    split; [exact Hdq|]. split; [unfold e1, k; lia|].
    change (inject_Z (2 ^ 52)) with (4503599627370496 # 1) in H52.
    change (1 # 2 ^ 53) with (1 # 9007199254740992).
    rewrite Hv. apply half_ulp_rel; assumption.
  - assert (Hq : Zpos q = (2 ^ 53)%Z) by lia.
    assert (Hdq : Zpos (digits2_pos q) = 54%Z)
      by (apply digits2_pos_unique; lia).
    change (Zdigits2 (Zpos q)) with (Zpos (digits2_pos q)).
    rewrite Hdq, fexp_normal by lia.
    replace (54 + e1 - 53 - e1)%Z with 1%Z by lia.
    injection Hq as ->.
    cbn [shr shr_record_of_loc shr_m iter_pos shr_1 orb].
    exists (4503599627370496%positive), (e1 + 1)%Z.
    replace (e1 + 1 <=? 1024 - 53)%Z with true by (symmetry; apply Z.leb_le; lia).
    split; [reflexivity|]. split.
    { unfold bounded, canonical_mantissa.
      change (Zpos (digits2_pos 4503599627370496)) with 53%Z.
      rewrite fexp_normal by lia.
      apply andb_true_iff. split; [apply Z.eqb_eq; lia|apply Z.leb_le; lia]. }
    split; [reflexivity|]. split; [unfold e1, k; lia|].
    assert (Hg1 : pow2 (e1 + 1) == 2 * pow2 e1).
    { rewrite pow2_add. change (pow2 1) with 2. ring. }
    change (inject_Z (2 ^ 52)) with (4503599627370496 # 1) in H52.
    change (1 # 2 ^ 53) with (1 # 9007199254740992).
    assert (Hm : inject_Z (Zpos 4503599627370496) * pow2 (e1 + 1)
                 == inject_Z 9007199254740992 * pow2 e1).
    { rewrite Hg1.
      change (inject_Z (Zpos 4503599627370496)) with (4503599627370496 # 1).
      change (inject_Z 9007199254740992) with (9007199254740992 # 1). ring. }
    rewrite Hm, Hv. apply half_ulp_rel; assumption.
Qed.

Lemma valueOf_pos (m : positive) (e : Z) : 0 < valueOf m e.
Proof.
  unfold valueOf. apply Qmult_lt_0_compat; [|apply pow2_pos].
  change 0 with (inject_Z 0). rewrite <- Zlt_Qlt. lia.
Qed.

Lemma digits2_pos_ge (p : positive) (n : Z) :
  (2 ^ (n - 1) <= Zpos p)%Z -> (n <= Zpos (digits2_pos p))%Z.
Proof.
  intro H. destruct (digits2_pos_bounds p) as [_ Bhi].
  destruct (Z_lt_le_dec (Zpos (digits2_pos p)) n) as [Hlt|]; [|assumption].
  assert ((2 ^ Zpos (digits2_pos p) <= 2 ^ (n - 1))%Z)
    by (apply Z.pow_le_mono_r; lia).
  lia.
Qed.

Lemma digits2_pos_le (p : positive) (n : Z) :
  (0 <= n)%Z -> (Zpos p < 2 ^ n)%Z -> (Zpos (digits2_pos p) <= n)%Z.
Proof.
  intros Hn H. destruct (digits2_pos_bounds p) as [Blo _].
  destruct (Z_lt_le_dec n (Zpos (digits2_pos p))) as [Hlt|]; [|assumption].
  assert ((2 ^ n <= 2 ^ (Zpos (digits2_pos p) - 1))%Z)
    by (apply Z.pow_le_mono_r; lia).
  lia.
Qed.

(** The product of two positive normal floats. *)
Lemma SFmul_rel (mx my : positive) (ex ey : Z) :
  Zpos (digits2_pos mx) = 53%Z -> Zpos (digits2_pos my) = 53%Z ->
  (-1074 <= ex + ey + 52)%Z -> (ex + ey + 53 < 971)%Z ->
  exists (m' : positive) (e' : Z),
    SFmul 53 1024 (S754_finite false mx ex) (S754_finite false my ey)
    = S754_finite false m' e'
    /\ bounded 53 1024 m' e' = true
    /\ Zpos (digits2_pos m') = 53%Z
    /\ (ex + ey + 52 <= e' <= ex + ey + 54)%Z
    /\ Qabs (valueOf m' e' - valueOf mx ex * valueOf my ey)
       <= valueOf mx ex * valueOf my ey * (1 # 2 ^ 53).
Proof.
  intros Hx Hy Hlo Hhi.
  destruct (digits2_pos_bounds mx) as [Xlo Xhi].
  destruct (digits2_pos_bounds my) as [Ylo Yhi].
  rewrite Hx in Xlo, Xhi. rewrite Hy in Ylo, Yhi.
  change (53 - 1)%Z with 52%Z in Xlo, Ylo.
  assert (Plo : (2 ^ 104 <= Zpos (mx * my))%Z).
  { rewrite Pos2Z.inj_mul. change (2 ^ 104)%Z with (2 ^ 52 * 2 ^ 52)%Z.
    apply Z.mul_le_mono_nonneg; lia. }
  assert (Phi : (Zpos (mx * my) < 2 ^ 106)%Z).
  { rewrite Pos2Z.inj_mul. change (2 ^ 106)%Z with (2 ^ 53 * 2 ^ 53)%Z.
    apply Z.mul_lt_mono_nonneg; lia. }
  assert (D1 : (105 <= Zpos (digits2_pos (mx * my)))%Z)
    by (apply digits2_pos_ge; exact Plo).
  assert (D2 : (Zpos (digits2_pos (mx * my)) <= 106)%Z)
    by (apply digits2_pos_le; [lia|exact Phi]).
  destruct (binary_round_aux_rel false (mx * my) (ex + ey) loc_Exact
              (valueOf mx ex * valueOf my ey))
    as (m' & e' & E & Hb & Hd & He & Hr).
  - lia.
  - lia.
  - cbv [inbetween shr_record_of_loc shr_m shr_r shr_s].
    unfold valueOf. rewrite Pos2Z.inj_mul, inject_Z_mult.
    assert (H1 : pow2 ex * pow2 ey * pow2 (- (ex + ey)) == 1).
    { rewrite <- !pow2_add.
      replace (ex + ey + - (ex + ey))%Z with 0%Z by lia. reflexivity. }
    transitivity (inject_Z (Zpos mx) * inject_Z (Zpos my)
                  * (pow2 ex * pow2 ey * pow2 (- (ex + ey)))).
    + ring.
    + rewrite H1. ring.
  - exists m', e'. simpl SFmul. split; [exact E|]. split; [exact Hb|].
    split; [exact Hd|]. split; [lia|exact Hr].
Qed.

Lemma inject_Z_pos (z : Z) : (0 < z)%Z -> 0 < inject_Z z.
Proof. intro H. change 0 with (inject_Z 0). rewrite <- Zlt_Qlt. exact H. Qed.

(** The location the division reads off the remainder is where the
    quotient lies. *)
Lemma new_location_inbetween (d r q : Z) :
  (0 <= r < d)%Z ->
  inbetween (inject_Z q + inject_Z r / inject_Z d)
            (shr_record_of_loc q (new_location d r)).
Proof.
  intros [Hr Hd].
  assert (HD : 0 < inject_Z d) by (apply inject_Z_pos; lia).
  set (t := inject_Z r / inject_Z d).
  assert (Ht : t * inject_Z d == inject_Z r).
  { unfold t. field. intro H. rewrite H in HD. apply (Qlt_irrefl 0), HD. }
  assert (Hzero : r = 0%Z -> t == 0).
  { intros ->. unfold t. change (inject_Z 0) with 0. field.
    intro H. rewrite H in HD. apply (Qlt_irrefl 0), HD. }
  assert (Hpos : (0 < r)%Z -> 0 < t).
  { intro H. unfold t. apply Qlt_shift_div_l; [exact HD|].
    rewrite Qmult_0_l. apply inject_Z_pos, H. }
  assert (Hlt : (2 * r < d)%Z -> t < 1 # 2).
  { intro H. unfold t. apply Qlt_shift_div_r; [exact HD|].
    rewrite Zlt_Qlt in H. rewrite inject_Z_mult in H.
    change (inject_Z 2) with 2 in H. lra. }
  assert (Hgt : (d < 2 * r)%Z -> 1 # 2 < t).
  { intro H. unfold t. apply Qlt_shift_div_l; [exact HD|].
    rewrite Zlt_Qlt in H. rewrite inject_Z_mult in H.
    change (inject_Z 2) with 2 in H. lra. }
  assert (Heq : (2 * r = d)%Z -> t == 1 # 2).
  { intro H. assert (H' : 2 * inject_Z r == inject_Z d).
    { rewrite <- H, inject_Z_mult. reflexivity. }
    unfold t. rewrite <- H'. field.
    intro E. rewrite E in H'. rewrite <- H' in HD. lra. }
  assert (Hone : t < 1).
  { unfold t. apply Qlt_shift_div_r; [exact HD|].
    rewrite Zlt_Qlt in Hd. lra. }
  unfold new_location, new_location_even, new_location_odd.
  destruct (Z.even d) eqn:Ev; destruct (Z.eqb_spec r 0) as [E0|N0].
  - cbv [inbetween shr_record_of_loc shr_m shr_r shr_s]. rewrite (Hzero E0). ring.
  - destruct (Z.compare_spec (2 * r) d) as [E|L|G];
      cbv [inbetween shr_record_of_loc shr_m shr_r shr_s].
    + rewrite (Heq E). reflexivity.
    + pose proof (Hlt L). pose proof (Hpos ltac:(lia)). lra.
    + pose proof (Hgt G). lra.
  - cbv [inbetween shr_record_of_loc shr_m shr_r shr_s]. rewrite (Hzero E0). ring.
  - assert (Hodd : (2 * r <> d)%Z).
    { intro E. rewrite <- E in Ev.
      rewrite Z.even_mul in Ev. discriminate Ev. }
    destruct (Z.compare_spec (2 * r + 1) d) as [E|L|G];
      cbv [inbetween shr_record_of_loc shr_m shr_r shr_s].
    + pose proof (Hlt ltac:(lia)). pose proof (Hpos ltac:(lia)). lra.
    + pose proof (Hlt ltac:(lia)). pose proof (Hpos ltac:(lia)). lra.
    + pose proof (Hgt ltac:(lia)). lra.
Qed.

(** The quotient of two positive normal floats. *)
Lemma SFdiv_rel (mx my : positive) (ex ey : Z) :
  Zpos (digits2_pos mx) = 53%Z -> Zpos (digits2_pos my) = 53%Z ->
  (-1021 <= ex - ey)%Z -> (ex - ey + 1 < 971)%Z ->
  exists (m' : positive) (e' : Z),
    SFdiv 53 1024 (S754_finite false mx ex) (S754_finite false my ey)
    = S754_finite false m' e'
    /\ bounded 53 1024 m' e' = true
    /\ Zpos (digits2_pos m') = 53%Z
    /\ (ex - ey - 53 <= e' <= ex - ey + 1)%Z
    /\ Qabs (valueOf m' e' - valueOf mx ex / valueOf my ey)
       <= valueOf mx ex / valueOf my ey * (1 # 2 ^ 53).
Proof.
  intros Hx Hy Hlo Hhi.
  destruct (digits2_pos_bounds mx) as [Xlo Xhi].
  destruct (digits2_pos_bounds my) as [Ylo Yhi].
  rewrite Hx in Xlo, Xhi. rewrite Hy in Ylo, Yhi.
  change (53 - 1)%Z with 52%Z in Xlo, Ylo.
  unfold SFdiv, SFdiv_core_binary.
  change (Zdigits2 (Zpos mx)) with (Zpos (digits2_pos mx)).
  change (Zdigits2 (Zpos my)) with (Zpos (digits2_pos my)).
  rewrite Hx, Hy.
  replace (53 + ex - (53 + ey))%Z with (ex - ey)%Z by lia.
  rewrite fexp_normal by lia.
  rewrite Z.min_l by lia.
  replace (ex - ey - (ex - ey - 53))%Z with 53%Z by lia.
  cbv iota beta.
  rewrite Z.shiftl_mul_pow2 by lia.
  pose proof (Z_div_mod (Zpos mx * 2 ^ 53) (Zpos my) ltac:(lia)) as Hdm.
  destruct (Z.div_eucl (Zpos mx * 2 ^ 53) (Zpos my)) as [q r].
  destruct Hdm as [Hdm Hr].
  assert (Hq1 : (2 ^ 52 <= q)%Z) by nia.
  assert (Hq2 : (q < 2 ^ 54)%Z) by nia.
  destruct q as [|q|q]; [lia| |lia].
  assert (D1 : (53 <= Zpos (digits2_pos q))%Z)
    by (apply digits2_pos_ge; exact Hq1).
  assert (D2 : (Zpos (digits2_pos q) <= 54)%Z)
    by (apply digits2_pos_le; [lia|exact Hq2]).
  set (v := valueOf mx ex / valueOf my ey).
  destruct (binary_round_aux_rel false q (ex - ey - 53)
              (new_location (Zpos my) r) v)
    as (m' & e' & E & Hb & Hd & He & Hrel).
  - lia.
  - lia.
  - apply (inbetween_ext (inject_Z (Zpos q) + inject_Z r / inject_Z (Zpos my)));
      [|apply new_location_inbetween; lia].
    unfold v, valueOf.
    assert (Hm : inject_Z (Zpos mx) * inject_Z (2 ^ 53)
                 == inject_Z (Zpos my) * inject_Z (Zpos q) + inject_Z r).
    { rewrite <- !inject_Z_mult, <- inject_Z_plus, Hdm. reflexivity. }
    assert (Hp : pow2 ex * pow2 (- (ex - ey - 53)) == pow2 ey * inject_Z (2 ^ 53)).
    { rewrite <- pow2_add, <- (pow2_nonneg_Z 53), <- pow2_add by lia.
      replace (ex + - (ex - ey - 53))%Z with (ey + 53)%Z by lia. reflexivity. }
    pose proof (pow2_pos ey) as Hey.
    pose proof (inject_Z_pos (Zpos my) ltac:(lia)) as Hmy.
    transitivity (inject_Z (Zpos mx) * (pow2 ex * pow2 (- (ex - ey - 53)))
                  / (inject_Z (Zpos my) * pow2 ey)).
    + rewrite Hp.
      transitivity ((inject_Z (Zpos mx) * inject_Z (2 ^ 53)) / inject_Z (Zpos my)).
      * rewrite Hm. field. lra.
      * field. split; lra.
    + field. split; lra.
  - exists m', e'. simpl xorb. split; [exact E|]. split; [exact Hb|].
    split; [exact Hd|]. split; [lia|exact Hrel].
Qed.

Lemma Pos_iter_xO (p d : positive) :
  Zpos (Pos.iter xO p d) = (Zpos p * 2 ^ Zpos d)%Z.
Proof.
  induction d as [|d IH] using Pos.peano_ind.
  - simpl. lia.
  - rewrite Pos.iter_succ, Pos2Z.inj_xO, IH, Pos2Z.inj_succ, Z.pow_succ_r by lia.
    lia.
Qed.

(** The conversion of a positive integer below 2^64. *)
Lemma binary_normalize_rel (p : positive) :
  (Zpos p < 2 ^ 64)%Z ->
  exists (m : positive) (e : Z),
    binary_normalize 53 1024 (Zpos p) 0 false = S754_finite false m e
    /\ bounded 53 1024 m e = true
    /\ Zpos (digits2_pos m) = 53%Z
    /\ (-52 <= e <= 12)%Z
    /\ Qabs (valueOf m e - inject_Z (Zpos p)) <= inject_Z (Zpos p) * (1 # 2 ^ 53).
Proof.
  intro Hp.
  destruct (digits2_pos_bounds p) as [Blo Bhi].
  assert (DU : (Zpos (digits2_pos p) <= 64)%Z)
    by (apply digits2_pos_le; [lia|exact Hp]).
  set (D := Zpos (digits2_pos p)) in *.
  assert (D0 : (1 <= D)%Z) by (unfold D; lia).
  unfold binary_normalize, binary_round.
  fold D. rewrite Z.add_0_r, fexp_normal by lia.
  unfold shl_align. rewrite Z.sub_0_r.
  destruct (D - 53)%Z as [|k|k] eqn:Ek.
  - destruct (binary_round_aux_rel false p 0 loc_Exact (inject_Z (Zpos p)))
      as (m & e & E & Hb & Hd & He & Hr).
    + fold D. lia.
    + fold D. lia.
    + cbv [inbetween shr_record_of_loc shr_m shr_r shr_s].
      change (pow2 (- 0)) with 1. ring.
    + exists m, e. fold D in He. repeat split; try assumption; lia.
  - destruct (binary_round_aux_rel false p 0 loc_Exact (inject_Z (Zpos p)))
      as (m & e & E & Hb & Hd & He & Hr).
    + fold D. lia.
    + fold D. lia.
    + cbv [inbetween shr_record_of_loc shr_m shr_r shr_s].
      change (pow2 (- 0)) with 1. ring.
    + exists m, e. fold D in He. repeat split; try assumption; lia.
  - assert (Hk : Zpos k = (53 - D)%Z) by lia.
    pose proof (Pos_iter_xO p k) as Hmz.
    set (mz := Pos.iter xO p k) in *.
    assert (Hpow : (0 < 2 ^ Zpos k)%Z) by (apply Z.pow_pos_nonneg; lia).
    assert (Hdz : Zpos (digits2_pos mz) = 53%Z).
    { apply digits2_pos_unique. rewrite Hmz.
      replace (53 - 1)%Z with (D - 1 + Zpos k)%Z by lia.
      replace (2 ^ 53)%Z with (2 ^ (D + Zpos k))%Z by (f_equal; lia).
      rewrite !Z.pow_add_r by lia. nia. }
    destruct (binary_round_aux_rel false mz (Zneg k) loc_Exact (inject_Z (Zpos p)))
      as (m & e & E & Hb & Hd & He & Hr).
    + lia.
    + lia.
    + cbv [inbetween shr_record_of_loc shr_m shr_r shr_s].
      change (- Zneg k)%Z with (Zpos k).
      rewrite Hmz, inject_Z_mult, pow2_nonneg_Z by lia. reflexivity.
    + exists m, e. rewrite Hdz in He. repeat split; try assumption; lia.
Qed.

Lemma Prim2SF_float64 (p : positive) :
  (Zpos p < 2 ^ 64)%Z ->
  exists (m : positive) (e : Z),
    Prim2SF (float64 (Zpos p)) = S754_finite false m e
    /\ Zpos (digits2_pos m) = 53%Z
    /\ (-52 <= e <= 12)%Z
    /\ Qabs (valueOf m e - inject_Z (Zpos p)) <= inject_Z (Zpos p) * (1 # 2 ^ 53).
Proof.
  intro Hp.
  destruct (binary_normalize_rel p Hp) as (m & e & E & Hb & Hd & He & Hr).
  exists m, e. unfold float64.
  change (binary_normalize prec emax (Zpos p) 0 false)
    with (binary_normalize 53 1024 (Zpos p) 0 false).
  rewrite E.
  rewrite Prim2SF_SF2Prim by exact Hb.
  repeat split; try assumption; lia.
Qed.

Lemma rel_chain_mul_div (A X Y V : Q) :
  0 < A ->
  Qabs (X - A) <= A * (1 # 9007199254740992) ->
  Qabs (Y - X * (5854679515581645 # 9007199254740992))
    <= X * (5854679515581645 # 9007199254740992) * (1 # 9007199254740992) ->
  Qabs (V - Y * (1 # 1000)) <= Y * (1 # 1000) * (1 # 9007199254740992) ->
  Qabs (V - A * (13 # 20000)) <= A * (13 # 20000) * (1 # 2251799813685248).
Proof.
  intros HA H0 H1 H2.
  apply Qabs_Qle_condition in H0, H1, H2. apply Qabs_Qle_condition.
  split; lra.
Qed.

Lemma rel_chain_mul (A X P : Q) :
  0 < A ->
  Qabs (X - A) <= A * (1 # 9007199254740992) ->
  Qabs (P - X * (5995191823955604 # 9223372036854775808))
    <= X * (5995191823955604 # 9223372036854775808) * (1 # 9007199254740992) ->
  Qabs (P - A * (13 # 20000)) <= A * (13 # 20000) * (1 # 2251799813685248).
Proof.
  intros HA H0 H1.
  apply Qabs_Qle_condition in H0, H1. apply Qabs_Qle_condition.
  split; lra.
Qed.

Lemma valueOf_lenStep :
  valueOf 5854679515581645 (-53) == 5854679515581645 # 9007199254740992.
Proof. vm_compute. reflexivity. Qed.

Lemma valueOf_mInKm : valueOf 8796093022208000 (-43) == 1000.
Proof. vm_compute. reflexivity. Qed.

Lemma valueOf_slope :
  valueOf 5995191823955604 (-63) == 5995191823955604 # 9223372036854775808.
Proof. vm_compute. reflexivity. Qed.

(** The distance of a positive step count: a positive finite float within
    a relative error of 2^-51 of the count times 0.00065. *)
Lemma distance_rel (p : positive) :
  (Zpos p < 2 ^ 64)%Z ->
  exists (m : positive) (e : Z),
    Prim2SF (Ftracker.distance (Zpos p)) = S754_finite false m e
    /\ Qabs (valueOf m e - inject_Z (Zpos p) * (13 # 20000))
       <= inject_Z (Zpos p) * (13 # 20000) * (1 # 2 ^ 51).
Proof.
  intro Hp.
  destruct (Prim2SF_float64 p Hp) as (mx & ex & Ex & Dx & Rx & Hx).
  unfold Ftracker.distance. rewrite div_spec, mul_spec, Ex.
  change (Prim2SF Ftracker.lenStep)
    with (S754_finite false 5854679515581645 (-53)).
  change (Prim2SF Ftracker.mInKm)
    with (S754_finite false 8796093022208000 (-43)).
  unfold SF64mul, SF64div.
  destruct (SFmul_rel mx 5854679515581645 ex (-53) Dx eq_refl)
    as (my & ey & Ey & _ & Dy & Ry & Hy); [lia|lia|].
  change (SFmul prec emax) with (SFmul 53 1024). rewrite Ey.
  destruct (SFdiv_rel my 8796093022208000 ey (-43) Dy eq_refl)
    as (mv & ev & Ev & _ & _ & _ & Hv); [lia|lia|].
  change (SFdiv prec emax) with (SFdiv 53 1024). rewrite Ev.
  exists mv, ev. split; [reflexivity|].
  rewrite valueOf_lenStep in Hy.
  rewrite valueOf_mInKm in Hv.
  assert (Ediv : valueOf my ey / 1000 == valueOf my ey * (1 # 1000))
    by (field).
  rewrite Ediv in Hv.
  apply (rel_chain_mul_div (inject_Z (Zpos p)) (valueOf mx ex) (valueOf my ey));
    [apply inject_Z_pos; lia|exact Hx|exact Hy|exact Hv].
Qed.

(** The float product of a positive step count and 0.00065: likewise. *)
Lemma slope_product_rel (p : positive) :
  (Zpos p < 2 ^ 64)%Z ->
  exists (m : positive) (e : Z),
    Prim2SF (float64 (Zpos p) * 0.00065)%float = S754_finite false m e
    /\ Qabs (valueOf m e - inject_Z (Zpos p) * (13 # 20000))
       <= inject_Z (Zpos p) * (13 # 20000) * (1 # 2 ^ 51).
Proof.
  intro Hp.
  destruct (Prim2SF_float64 p Hp) as (mx & ex & Ex & Dx & Rx & Hx).
  rewrite mul_spec, Ex.
  change (Prim2SF 0.00065%float)
    with (S754_finite false 5995191823955604 (-63)).
  unfold SF64mul.
  destruct (SFmul_rel mx 5995191823955604 ex (-63) Dx eq_refl)
    as (my & ey & Ey & _ & _ & _ & Hy); [lia|lia|].
  change (SFmul prec emax) with (SFmul 53 1024). rewrite Ey.
  exists my, ey. split; [reflexivity|].
  rewrite valueOf_slope in Hy.
  apply (rel_chain_mul (inject_Z (Zpos p)) (valueOf mx ex));
    [apply inject_Z_pos; lia|exact Hx|exact Hy].
Qed.

Lemma two_near_one_line (d q t : Q) :
  Qabs (d - t) <= t * (1 # 2 ^ 51) -> Qabs (q - t) <= t * (1 # 2 ^ 51) ->
  Qabs (d - q) <= t * (1 # 2 ^ 50).
Proof.
  change (1 # 2 ^ 51) with (1 # 2251799813685248).
  change (1 # 2 ^ 50) with (1 # 1125899906842624).
  intros Hd Hq. apply Qabs_Qle_condition in Hd, Hq. apply Qabs_Qle_condition.
  split; lra.
Qed.

(** C9, amended: for every step count of Go's [int] that is not negative,
    the distance is a finite float whose exact value differs from the
    exact product of the count and 0.00065 by a relative error of at most
    2^-51; the same holds of the float product of the count and 0.00065,
    which the distance need not equal but from which it differs by at
    most 2^-50 of the exact product. *)
Theorem distance_slope_relative_error :
  forall action : Z, (0 <= action <= maxInt)%Z ->
    isFinite (Ftracker.distance action) = true
    /\ Qabs (valueQ (Ftracker.distance action) - inject_Z action * (13 # 20000))
       <= inject_Z action * (13 # 20000) * (1 # 2 ^ 51)
    /\ isFinite (float64 action * 0.00065)%float = true
    /\ Qabs (valueQ (float64 action * 0.00065)%float
             - inject_Z action * (13 # 20000))
       <= inject_Z action * (13 # 20000) * (1 # 2 ^ 51)
    /\ Qabs (valueQ (Ftracker.distance action)
             - valueQ (float64 action * 0.00065)%float)
       <= inject_Z action * (13 # 20000) * (1 # 2 ^ 50).
Proof.
  intros action [H0 Hmax]. unfold maxInt in Hmax.
  destruct action as [|p|p]; [| |lia].
  - repeat split; vm_compute; discriminate.
  - assert (Hp : (Zpos p < 2 ^ 64)%Z) by lia.
    destruct (distance_rel p Hp) as (m & e & E & H).
    destruct (slope_product_rel p Hp) as (m' & e' & E' & H').
    unfold isFinite, valueQ. rewrite E, E'.
    split; [reflexivity|]. split; [exact H|]. split; [reflexivity|].
    split; [exact H'|]. apply two_near_one_line; assumption.
Qed.

Lemma distance_slope_relative_error_witness :
  (0 <= 3 <= maxInt)%Z
  /\ isFinite (Ftracker.distance 3) = true
  /\ Qabs (valueQ (Ftracker.distance 3) - inject_Z 3 * (13 # 20000))
     <= inject_Z 3 * (13 # 20000) * (1 # 2 ^ 51)
  /\ isFinite (float64 3 * 0.00065)%float = true
  /\ Qabs (valueQ (float64 3 * 0.00065)%float - inject_Z 3 * (13 # 20000))
     <= inject_Z 3 * (13 # 20000) * (1 # 2 ^ 51)
  /\ Qabs (valueQ (Ftracker.distance 3) - valueQ (float64 3 * 0.00065)%float)
     <= inject_Z 3 * (13 # 20000) * (1 # 2 ^ 50).
Proof.
  assert (H : (0 <= 3 <= maxInt)%Z) by (unfold maxInt; lia).
  split; [exact H | apply (distance_slope_relative_error 3 H)].
Defined.

End RoundingError.
